(** * Reference extraction of the Terminator editor plugin

    A shallow embedding of [editor_plugin.py]: the two built-in patterns,
    the git diff context tracker ([update_git_diff_context]), the resolver
    ([get_filepath]), the library-directory search
    ([search_filepath_in_libdir]) and [check_config].

    Python strings are modelled by [string]; a character is a code point
    below 256, where [\d] and [[0-9]] coincide.  The [re] module is modelled
    by a backtracking matcher over the syntax the built-in patterns use. *)

From Stdlib Require Import Ascii String Bool Arith Lia.
From stdpp Require Import gmap strings list.

#[local] Arguments String.append !_ _ / : simpl nomatch.

(** ** Strings *)

Module Str.

(** [c in s] for a one-character [c]. *)
Fixpoint contains (c : ascii) (s : string) : bool :=
  match s with
  | EmptyString => false
  | String a s' => Ascii.eqb a c || contains c s'
  end.

(** [s.startswith(p)]. *)
Fixpoint startswith (p s : string) : bool :=
  match p, s with
  | EmptyString, _ => true
  | String _ _, EmptyString => false
  | String a p', String b s' => Ascii.eqb a b && startswith p' s'
  end.

(** [s.endswith(p)]. *)
Fixpoint endswith (p s : string) : bool :=
  String.eqb p s
  || match s with
     | EmptyString => false
     | String _ s' => endswith p s'
     end.

Fixpoint all (p : ascii -> bool) (s : string) : bool :=
  match s with
  | EmptyString => true
  | String a s' => p a && all p s'
  end.

(** Reverse-append: [revapp "cba" "def" = "abcdef"]. *)
Fixpoint revapp (r s : string) : string :=
  match r with
  | EmptyString => s
  | String a r' => revapp r' (String a s)
  end.

(** [s.split('/')[-1]]: the text after the last occurrence of [sep]. *)
Fixpoint last_segment (sep : ascii) (s : string) : string :=
  match s with
  | EmptyString => EmptyString
  | String a s' =>
      if Ascii.eqb a sep then last_segment sep s'
      else if contains sep s' then last_segment sep s'
      else s
  end.

(** Characters [str.split()] treats as white space (code points < 256). *)
Definition is_space (a : ascii) : bool :=
  let n := nat_of_ascii a in
  ((9 <=? n) && (n <=? 13)) || ((28 <=? n) && (n <=? 32))
  || (n =? 133) || (n =? 160).

(** [s.split()]: maximal runs of non-space characters. *)
Fixpoint split_ws_aux (cur : string) (s : string) : list string :=
  match s with
  | EmptyString =>
      match cur with EmptyString => [] | _ => [revapp cur EmptyString] end
  | String a s' =>
      if is_space a then
        match cur with
        | EmptyString => split_ws_aux EmptyString s'
        | _ => revapp cur EmptyString :: split_ws_aux EmptyString s'
        end
      else split_ws_aux (String a cur) s'
  end.

Definition split_ws (s : string) : list string := split_ws_aux EmptyString s.

End Str.

(** ** Regular expressions: the fragment of Python's [re] in use *)

Module Re.

(** An item of a character set [[...]]. *)
Inductive citem :=
| CChr (c : ascii)
| CRange (lo hi : ascii)
| CDigit.

Inductive regex :=
| REps
| RChr (c : ascii)
| RAny
| RSet (neg : bool) (cs : list citem)
| RCat (r1 r2 : regex)
| RAlt (r1 r2 : regex)
| RStar (r : regex)
| RPlus (r : regex)
| ROpt (r : regex)
| RGroup (i : nat) (r : regex)
| RBol
| REol
| RAhead (neg : bool) (r : regex)
| RBehind (neg : bool) (r : regex).

Definition is_digit (a : ascii) : bool :=
  let n := nat_of_ascii a in (48 <=? n) && (n <=? 57).

Definition in_item (a : ascii) (it : citem) : bool :=
  match it with
  | CChr c => Ascii.eqb a c
  | CRange lo hi =>
      (nat_of_ascii lo <=? nat_of_ascii a) && (nat_of_ascii a <=? nat_of_ascii hi)
  | CDigit => is_digit a
  end.

Definition in_set (neg : bool) (cs : list citem) (a : ascii) : bool :=
  xorb neg (existsb (in_item a) cs).

(** Matcher state: the text before the cursor (reversed), the text after
    it, and the capture groups (group [i] at index [i - 1]). *)
Record mstate := MState {
  before : string;
  after : string;
  caps : list (option string)
}.

Definition advance (a : ascii) (st : mstate) : mstate :=
  MState (String a (before st)) (match after st with
                                 | String _ s => s
                                 | EmptyString => EmptyString
                                 end) (caps st).

Definition step (p : ascii -> bool) (st : mstate)
    (k : mstate -> option mstate) : option mstate :=
  match after st with
  | String a _ => if p a then k (advance a st) else None
  | EmptyString => None
  end.

(** Greedy repetition of [body], longest first; an iteration that
    consumes nothing ends the loop. *)
Fixpoint star_loop (body : mstate -> (mstate -> option mstate) -> option mstate)
    (k : mstate -> option mstate) (n : nat) (st : mstate) : option mstate :=
  match n with
  | O => k st
  | S n' =>
      match body st (fun st' =>
              if String.length (after st') <? String.length (after st)
              then star_loop body k n' st' else None) with
      | Some res => Some res
      | None => k st
      end
  end.

(** Width of a fixed-width pattern (look-behind needs one). *)
Fixpoint width (r : regex) : option nat :=
  match r with
  | REps | RBol | REol | RAhead _ _ | RBehind _ _ => Some 0
  | RChr _ | RAny | RSet _ _ => Some 1
  | RCat r1 r2 =>
      match width r1, width r2 with
      | Some a, Some b => Some (a + b)
      | _, _ => None
      end
  | RAlt r1 r2 =>
      match width r1, width r2 with
      | Some a, Some b => if a =? b then Some a else None
      | _, _ => None
      end
  | RGroup _ r1 => width r1
  | RStar _ | RPlus _ | ROpt _ => None
  end.

(** Move the cursor [n] characters back; [None] at the start of the text. *)
Fixpoint rewind (n : nat) (st : mstate) : option mstate :=
  match n with
  | O => Some st
  | S n' =>
      match before st with
      | EmptyString => None
      | String a b => rewind n' (MState b (String a (after st)) (caps st))
      end
  end.

(** The text consumed between [st] and a later state [st']. *)
Definition consumed (st st' : mstate) : string :=
  String.substring 0 (String.length (after st) - String.length (after st'))
                   (after st).

(** Backtracking matcher in continuation-passing style. *)
Fixpoint exec (r : regex) (st : mstate) (k : mstate -> option mstate)
    {struct r} : option mstate :=
  match r with
  | REps => k st
  | RChr c => step (Ascii.eqb c) st k
  | RAny => step (fun a => negb (Ascii.eqb a "010"%char)) st k
  | RSet neg cs => step (in_set neg cs) st k
  | RCat r1 r2 => exec r1 st (fun st' => exec r2 st' k)
  | RAlt r1 r2 =>
      match exec r1 st k with
      | Some res => Some res
      | None => exec r2 st k
      end
  | RStar r1 => star_loop (exec r1) k (S (String.length (after st))) st
  | RPlus r1 =>
      exec r1 st (fun st' =>
        star_loop (exec r1) k (S (String.length (after st'))) st')
  | ROpt r1 =>
      match exec r1 st k with
      | Some res => Some res
      | None => k st
      end
  | RGroup i r1 =>
      exec r1 st (fun st' =>
        k (MState (before st') (after st')
                  (<[pred i := Some (consumed st st')]> (caps st'))))
  | RBol => match before st with EmptyString => k st | _ => None end
  | REol =>
      match after st with
      | EmptyString => k st
      | String "010"%char EmptyString => k st
      | _ => None
      end
  | RAhead neg r1 =>
      match exec r1 st Some with
      | Some st' =>
          if neg then None else k (MState (before st) (after st) (caps st'))
      | None => if neg then k st else None
      end
  | RBehind neg r1 =>
      let found :=
        match width r1 with
        | Some w =>
            match rewind w st with
            | Some st0 =>
                exec r1 st0 (fun st' =>
                  if String.length (after st') =? String.length (after st)
                  then Some st' else None)
            | None => None
            end
        | None => None
        end in
      match found with
      | Some st' =>
          if neg then None else k (MState (before st) (after st) (caps st'))
      | None => if neg then k st else None
      end
  end.

(** *** Reading a pattern *)

Definition is_alnum (a : ascii) : bool :=
  let n := nat_of_ascii a in
  ((48 <=? n) && (n <=? 57)) || ((65 <=? n) && (n <=? 90))
  || ((97 <=? n) && (n <=? 122)).

(** One character of a set, possibly escaped: the item it denotes and
    the rest of the pattern. *)
Definition set_atom (s : string) : option (citem * string) :=
  match s with
  | String "\"%char (String c s') =>
      if Ascii.eqb c "d" then Some (CDigit, s')
      else if Ascii.eqb c "t" then Some (CChr "009", s')
      else if Ascii.eqb c "n" then Some (CChr "010", s')
      else if is_alnum c then None
      else Some (CChr c, s')
  | String "\"%char EmptyString => None
  | String c s' => Some (CChr c, s')
  | EmptyString => None
  end.

(** The items of a set up to its closing bracket. *)
Fixpoint parse_set (fuel : nat) (first : bool) (s : string)
    : option (list citem * string) :=
  match fuel with
  | O => None
  | S f =>
      match s with
      | EmptyString => None
      | String c s0 =>
          if Ascii.eqb c "]" && negb first then Some ([], s0)
          else
            match set_atom s with
            | None => None
            | Some (CChr lo, String "-"%char s1) =>
                if Str.startswith "]" s1 then
                  match parse_set f false (String "-"%char s1) with
                  | Some (cs, s2) => Some (CChr lo :: cs, s2)
                  | None => None
                  end
                else
                  match set_atom s1 with
                  | Some (CChr hi, s2) =>
                      match parse_set f false s2 with
                      | Some (cs, s3) => Some (CRange lo hi :: cs, s3)
                      | None => None
                      end
                  | _ => None
                  end
            | Some (it, s1) =>
                match parse_set f false s1 with
                | Some (cs, s2) => Some (it :: cs, s2)
                | None => None
                end
            end
      end
  end.

(** Lazy and possessive quantifiers and counted repeats are not read. *)
Definition no_second_quantifier (s : string) : bool :=
  match s with
  | String c _ =>
      negb (Ascii.eqb c "*" || Ascii.eqb c "+" || Ascii.eqb c "?"
            || Ascii.eqb c "{")
  | EmptyString => true
  end.

Definition quantified (r : regex) (s : string) (g : nat)
    : option (regex * string * nat) :=
  match s with
  | String "*"%char s' =>
      if no_second_quantifier s' then Some (RStar r, s', g) else None
  | String "+"%char s' =>
      if no_second_quantifier s' then Some (RPlus r, s', g) else None
  | String "?"%char s' =>
      if no_second_quantifier s' then Some (ROpt r, s', g) else None
  | String "{"%char _ => None
  | _ => Some (r, s, g)
  end.

Definition closing (s : string) (g : nat) (mk : regex -> option regex)
    (inner : option (regex * string * nat)) : option (regex * string * nat) :=
  match inner with
  | Some (r, String ")"%char s', g') =>
      match mk r with
      | Some r' => Some (r', s', g')
      | None => None
      end
  | _ => None
  end.

Definition behind (neg : bool) (r : regex) : option regex :=
  match width r with
  | Some _ => Some (RBehind neg r)
  | None => None
  end.

(** Recursive descent; [g] is the number of groups opened so far. *)
Fixpoint parse_alt (fuel : nat) (s : string) (g : nat)
    : option (regex * string * nat) :=
  match fuel with
  | O => None
  | S f =>
      match parse_seq f s g with
      | Some (r1, String "|"%char s', g') =>
          match parse_alt f s' g' with
          | Some (r2, s'', g'') => Some (RAlt r1 r2, s'', g'')
          | None => None
          end
      | other => other
      end
  end
with parse_seq (fuel : nat) (s : string) (g : nat)
    : option (regex * string * nat) :=
  match fuel with
  | O => None
  | S f =>
      match s with
      | EmptyString | String "|"%char _ | String ")"%char _ => Some (REps, s, g)
      | _ =>
          match parse_atom f s g with
          | Some (r0, s0, g0) =>
              match quantified r0 s0 g0 with
              | Some (r1, s', g') =>
                  match parse_seq f s' g' with
                  | Some (REps, s'', g'') => Some (r1, s'', g'')
                  | Some (r2, s'', g'') => Some (RCat r1 r2, s'', g'')
                  | None => None
                  end
              | None => None
              end
          | None => None
          end
      end
  end
with parse_atom (fuel : nat) (s : string) (g : nat)
    : option (regex * string * nat) :=
  match fuel with
  | O => None
  | S f =>
      match s with
      | EmptyString => None
      | String "("%char (String "?"%char (String ":"%char s')) =>
          closing s' g Some (parse_alt f s' g)
      | String "("%char (String "?"%char (String "="%char s')) =>
          closing s' g (fun r => Some (RAhead false r)) (parse_alt f s' g)
      | String "("%char (String "?"%char (String "!"%char s')) =>
          closing s' g (fun r => Some (RAhead true r)) (parse_alt f s' g)
      | String "("%char (String "?"%char (String "<"%char (String "="%char s'))) =>
          closing s' g (behind false) (parse_alt f s' g)
      | String "("%char (String "?"%char (String "<"%char (String "!"%char s'))) =>
          closing s' g (behind true) (parse_alt f s' g)
      | String "("%char (String "?"%char _) => None
      | String "("%char s' =>
          closing s' g (fun r => Some (RGroup (S g) r)) (parse_alt f s' (S g))
      | String "["%char (String "^"%char s') =>
          match parse_set (String.length s') true s' with
          | Some (cs, s'') => Some (RSet true cs, s'', g)
          | None => None
          end
      | String "["%char s' =>
          match parse_set (String.length s') true s' with
          | Some (cs, s'') => Some (RSet false cs, s'', g)
          | None => None
          end
      | String "\"%char (String c s') =>
          if Ascii.eqb c "d" then Some (RSet false [CDigit], s', g)
          else if Ascii.eqb c "t" then Some (RChr "009", s', g)
          else if Ascii.eqb c "n" then Some (RChr "010", s', g)
          else if is_alnum c then None
          else Some (RChr c, s', g)
      | String "\"%char EmptyString => None
      | String "."%char s' => Some (RAny, s', g)
      | String "^"%char s' => Some (RBol, s', g)
      | String "$"%char s' => Some (REol, s', g)
      | String "*"%char _ | String "+"%char _ | String "?"%char _
      | String "{"%char _ | String ")"%char _ | String "|"%char _ => None
      | String c s' => Some (RChr c, s', g)
      end
  end.

(** [re.compile]: the pattern's syntax tree and its number of groups;
    [None] for a pattern that is rejected (or outside the syntax read
    here). *)
Definition compile (p : string) : option (regex * nat) :=
  match parse_alt (4 * String.length p + 4) p 0 with
  | Some (r, EmptyString, g) => Some (r, g)
  | _ => None
  end.

(** *** Match objects *)

Record rmatch := RMatch {
  group0 : string;                  (* [m.group(0)] *)
  groups : list (option string)     (* [m.groups()] *)
}.

Definition group (m : rmatch) (i : nat) : option string :=
  match i with
  | O => Some (group0 m)
  | S j => mjoin (groups m !! j)
  end.

Definition start_state (bef s : string) (g : nat) : mstate :=
  MState bef s (replicate g None).

Definition attempt (r : regex) (g : nat) (bef s : string) : option rmatch :=
  match exec r (start_state bef s g) Some with
  | Some st' => Some (RMatch (consumed (start_state bef s g) st') (caps st'))
  | None => None
  end.

(** Leftmost match starting at or after the cursor. *)
Fixpoint scan (r : regex) (g : nat) (bef s : string) : option rmatch :=
  match attempt r g bef s with
  | Some m => Some m
  | None =>
      match s with
      | String a s' => scan r g (String a bef) s'
      | EmptyString => None
      end
  end.

(** [re.match(p, s)] and [re.search(p, s)]: the outer [None] is the
    exception [re.error], the inner one Python's [None]. *)
Definition re_match (p s : string) : option (option rmatch) :=
  match compile p with
  | Some (r, g) => Some (attempt r g EmptyString s)
  | None => None
  end.

Definition re_search (p s : string) : option (option rmatch) :=
  match compile p with
  | Some (r, g) => Some (scan r g EmptyString s)
  | None => None
  end.

End Re.

(** ** Python values, exceptions and the [os.path] functions in use *)

(** A dynamically typed slot holding [None], a [bool] or a [str]. *)
Inductive pyval :=
| PNone
| PBool (b : bool)
| PStr (s : string).

(** Truth value of a slot ([if v:]). *)
Definition truthy (v : pyval) : bool :=
  match v with
  | PNone => false
  | PBool b => b
  | PStr s => negb (String.eqb s "")
  end.

(** [v == w]; a [bool] never equals a [str]. *)
Definition py_eqb (v w : pyval) : bool :=
  match v, w with
  | PNone, PNone => true
  | PBool a, PBool b => Bool.eqb a b
  | PStr a, PStr b => String.eqb a b
  | _, _ => false
  end.

Definition py_of_option (o : option string) : pyval :=
  match o with
  | Some s => PStr s
  | None => PNone
  end.

Inductive exn := KeyError | TypeError | AttributeError | ReError.

Inductive result (A : Type) :=
| Ok (a : A)
| Raise (e : exn).
Arguments Ok {A} a.
Arguments Raise {A} e.

#[global] Instance result_ret : MRet result := fun A a => Ok a.
#[global] Instance result_bind : MBind result := fun A B f x =>
  match x with
  | Ok a => f a
  | Raise e => Raise e
  end.

(** [d[key]] on a dict. *)
Definition getitem (d : gmap string pyval) (key : string) : result pyval :=
  match d !! key with
  | Some v => Ok v
  | None => Raise KeyError
  end.

(** A value used where a [str] is required. *)
Definition as_str (e : exn) (v : pyval) : result string :=
  match v with
  | PStr s => Ok s
  | _ => Raise e
  end.

Module OsPath.

(** [posixpath.isabs]. *)
Definition isabs (s : string) : bool := Str.startswith "/" s.

(** [posixpath.join(a, b)]. *)
Definition join (a b : string) : string :=
  if Str.startswith "/" b then b
  else if String.eqb a "" || Str.endswith "/" a then a +:+ b
  else a +:+ "/" +:+ b.

End OsPath.

(** What the plugin asks of its host and of the file system. *)
Record Host := {
  (** [Terminal.get_cwd()], [PNone] when no terminal is on the stack *)
  host_cwd : pyval;
  (** [os.path.exists] *)
  path_exists : string -> bool;
  (** [os.path.expanduser] *)
  expanduser : string -> string;
  (** [os.walk(root)]: the triples (dirpath, dirnames, filenames) in
      traversal order *)
  walk : string -> list (string * list string * list string)
}.

(** ** The plugin *)

Definition DEFAULT_COMMAND : string := "gvim --remote-silent +{line} {filepath}".
Definition DEFAULT_REGEX : string :=
  "(?:^|(?<= ))(?![ab]/)([a-zA-Z0-9_/.\-]+\.[a-zA-Z0-9]+)(:[0-9]+)?(:[0-9]+)?(?=$|[ \t])".
Definition GIT_DIFF_REGEX : string :=
  "(?<=--- a/)[^ \t\n]+|(?<=\+\+\+ b/)[^ \t\n]+|(?<=diff --git a/)[^ \t\n]+|@@ [^@]+ @@|"
  +:+ DEFAULT_REGEX.
Definition DEFAULT_GROUPS : string := "file line column".
Definition DEFAULT_OPEN_IN_CURRENT_TERM : bool := false.
Definition DEFAULT_GIT_DIFF_SUPPORT : bool := true.

(** The pattern of the hunk header's new-file line number. *)
Definition HUNK_REGEX : string := "@@ -\d+,?\d* \+(\d+)".

Definition to_bool (val : pyval) : bool := py_eqb val (PStr "True").

(** [re.match] and [re.search] as the plugin calls them. *)
Definition py_match (pattern : pyval) (s : string) : result (option Re.rmatch) :=
  p ← as_str TypeError pattern;
  match Re.re_match p s with
  | Some m => mret m
  | None => Raise ReError
  end.

Definition py_search (p : string) (s : string) : result (option Re.rmatch) :=
  match Re.re_search p s with
  | Some m => Ok m
  | None => Raise ReError
  end.

(** [check_config]: the dict handed to [plugin_set_config] and saved.
    [saved] is what [plugin_get_config] returned. *)
Definition default_config : gmap string pyval :=
  {[ "command" := PStr DEFAULT_COMMAND;
     "match" := PStr DEFAULT_REGEX;
     "groups" := PStr DEFAULT_GROUPS;
     "open_in_current_term" := PBool DEFAULT_OPEN_IN_CURRENT_TERM;
     "git_diff_support" := PBool DEFAULT_GIT_DIFF_SUPPORT ]}.

Definition check_config (saved : option (gmap string pyval))
    : result (gmap string pyval) :=
  let config := default_config in
  let config :=
    match saved with
    | Some saved_config => saved_config ∪ config
    | None => config
    end in
  v ← getitem config "open_in_current_term";
  let config : gmap string pyval :=
    <["open_in_current_term" := PBool (to_bool v)]> config in
  let config :=
    <["git_diff_support" :=
        PBool (to_bool (default (PBool DEFAULT_GIT_DIFF_SUPPORT)
                                (config !! "git_diff_support")))]> config in
  flag ← getitem config "git_diff_support";
  let config :=
    if truthy flag then <["match" := PStr GIT_DIFF_REGEX]> config else config in
  mret config.

(** The module-level [_git_diff_context]. *)
Record DiffContext := {
  ctx_file : pyval;
  ctx_line : pyval
}.

Definition initial_context : DiffContext :=
  {| ctx_file := PNone; ctx_line := PNone |}.

(** Code that reads and writes the tracker and may raise: the tracker
    survives an exception. *)
Definition M (A : Type) : Type := DiffContext -> result A * DiffContext.

#[global] Instance M_ret : MRet M := fun A a ctx => (Ok a, ctx).
#[global] Instance M_bind : MBind M := fun A B f x ctx =>
  match x ctx with
  | (Ok a, ctx') => f a ctx'
  | (Raise e, ctx') => (Raise e, ctx')
  end.

Definition lift {A : Type} (r : result A) : M A := fun ctx => (r, ctx).
Definition get_context : M DiffContext := fun ctx => (Ok ctx, ctx).
Definition put_context (ctx : DiffContext) : M unit := fun _ => (Ok tt, ctx).

(** [('/' in strmatch or '.' in strmatch) and not strmatch.startswith('@@')] *)
Definition file_shaped (strmatch : string) : bool :=
  (Str.contains "/" strmatch || Str.contains "." strmatch)
  && negb (Str.startswith "@@" strmatch).

(** [update_git_diff_context]: a file-shaped fragment becomes the
    tracked file and clears the line; otherwise the hunk pattern, where
    it is found, sets the line. *)
Definition update_git_diff_context (strmatch : string) : M unit :=
  if file_shaped strmatch then
    put_context {| ctx_file := PStr strmatch; ctx_line := PNone |}
  else
    hunk_match ← lift (py_search HUNK_REGEX strmatch);
    match hunk_match with
    | Some m =>
        ctx ← get_context;
        put_context {| ctx_file := ctx_file ctx;
                       ctx_line := py_of_option (Re.group m 1) |}
    | None => mret tt
    end.

(** The inner loop of [search_filepath_in_libdir] over one directory. *)
Fixpoint find_in_dir (filename dirpath : string) (filenames : list string)
    : option string :=
  match filenames with
  | [] => None
  | name :: rest =>
      if String.eqb name filename then Some (OsPath.join dirpath name)
      else find_in_dir filename dirpath rest
  end.

(** Its outer loop over the walk; falling off the end returns [None]. *)
Fixpoint find_in_walk (filename : string)
    (triples : list (string * list string * list string)) : pyval :=
  match triples with
  | [] => PNone
  | (dirpath, _, filenames) :: rest =>
      match find_in_dir filename dirpath filenames with
      | Some found => PStr found
      | None => find_in_walk filename rest
      end
  end.

(** [plugin_get(name, 'libdir')] is read from the plugin's own section;
    a missing key is an exception. *)
Definition search_filepath_in_libdir (h : Host) (config : gmap string pyval)
    (group_value : string) : result pyval :=
  let filename := Str.last_segment "/" group_value in
  libdir ← getitem config "libdir";
  root ← as_str TypeError libdir;
  mret (find_in_walk filename (walk h (expanduser h root))).

(** [os.path.join(self.get_cwd(), p)] *)
Definition join_cwd (h : Host) (p : string) : result string :=
  cwd ← as_str TypeError (host_cwd h);
  mret (OsPath.join cwd p).

(** The triple [(filepath, line, column)]. *)
Definition Reference : Type := pyval * pyval * pyval.

Definition ref_filepath (r : Reference) : pyval := r.1.1.
Definition ref_line (r : Reference) : pyval := r.1.2.
Definition ref_column (r : Reference) : pyval := r.2.

(** [filepath = None; line = column = '1'] *)
Definition empty_reference : Reference := (PNone, PStr "1", PStr "1").

(** Lines 163-171: the path resolution of a captured [file] group. *)
Definition resolve_path (h : Host) (config : gmap string pyval)
    (group_value : string) : result pyval :=
  if OsPath.isabs group_value && path_exists h group_value then
    mret (PStr group_value)
  else
    filepath ← join_cwd h group_value;
    if negb (path_exists h filepath) then
      search_filepath_in_libdir h config group_value
    else mret (PStr filepath).

(** One turn of the loop over [zip(groups, group_names)]. *)
Definition assign_group (h : Host) (config : gmap string pyval)
    (acc : Reference) (group_value : option string) (group_name : string)
    : result Reference :=
  let '(filepath, line, column) := acc in
  match group_value with
  | None => mret acc
  | Some group_value =>
      let group_value :=
        if Str.startswith ":" group_value
        then String.substring 1 (String.length group_value - 1) group_value
        else group_value in
      if String.eqb group_name "file" then
        filepath ← resolve_path h config group_value;
        mret (filepath, line, column)
      else if String.eqb group_name "line" && negb (String.eqb group_value "")
      then mret (filepath, PStr group_value, column)
      else if String.eqb group_name "column" && negb (String.eqb group_value "")
      then mret (filepath, line, PStr group_value)
      else mret acc
  end.

Fixpoint assign_groups (h : Host) (config : gmap string pyval)
    (acc : Reference) (pairs : list (option string * string))
    : result Reference :=
  match pairs with
  | [] => mret acc
  | (group_value, group_name) :: rest =>
      acc' ← assign_group h config acc group_value group_name;
      assign_groups h config acc' rest
  end.

(** Lines 148-176 of [get_filepath]: the configured pattern re-matched
    on the fragment, and its groups assigned by name. *)
Definition plain_reference (h : Host) (config : gmap string pyval)
    (strmatch : string) : result Reference :=
  pattern ← getitem config "match";
  m ← py_match pattern strmatch;
  match m with
  | None => mret empty_reference
  | Some m =>
      names ← getitem config "groups";
      names ← as_str AttributeError names;
      assign_groups h config empty_reference
                    (zip (Re.groups m) (Str.split_ws names))
  end.

(** [config.get('git_diff_support', DEFAULT_GIT_DIFF_SUPPORT)] as a
    condition. *)
Definition git_diff_enabled (config : gmap string pyval) : bool :=
  truthy (default (PBool DEFAULT_GIT_DIFF_SUPPORT) (config !! "git_diff_support")).

(** [get_filepath]: the tracker is updated first, then a hunk header
    with a known file or a file-shaped fragment returns at once; every
    other fragment is left to the configured pattern. *)
Definition get_filepath (h : Host) (config : gmap string pyval)
    (strmatch : string) : M Reference :=
  if git_diff_enabled config then
    _ ← update_git_diff_context strmatch;
    if Str.startswith "@@" strmatch then
      hunk_match ← lift (py_search HUNK_REGEX strmatch);
      ctx ← get_context;
      match hunk_match with
      | Some m =>
          if truthy (ctx_file ctx) then
            file ← lift (as_str TypeError (ctx_file ctx));
            filepath ← lift (join_cwd h file);
            mret (PStr filepath, py_of_option (Re.group m 1), PStr "1")
          else lift (plain_reference h config strmatch)
      | None => lift (plain_reference h config strmatch)
      end
    else if Str.contains "/" strmatch || Str.contains "." strmatch then
      filepath ← lift (join_cwd h strmatch);
      ctx ← get_context;
      let line := if truthy (ctx_line ctx) then ctx_line ctx else PStr "1" in
      mret (PStr filepath, line, PStr "1")
    else lift (plain_reference h config strmatch)
  else lift (plain_reference h config strmatch).

(** The host resolves the fragments of successive lines one call at a
    time; the tracker is carried from call to call. *)
Fixpoint resolve_each (h : Host) (config : gmap string pyval)
    (fragments : list string) (ctx : DiffContext)
    : list (result Reference) * DiffContext :=
  match fragments with
  | [] => ([], ctx)
  | strmatch :: rest =>
      let '(r, ctx1) := get_filepath h config strmatch ctx in
      let '(rs, ctx2) := resolve_each h config rest ctx1 in
      (r :: rs, ctx2)
  end.

(** The host side: the fragment of a line is the text of the leftmost
    match of the active pattern. *)
Definition fragment_of_line (pattern line : string) : result (option string) :=
  m ← py_search pattern line;
  mret (option_map Re.group0 m).

(** ** The syntax trees of the built-in patterns *)

Module Ast.
Import Re.

Definition seq (rs : list regex) : regex :=
  foldr (fun r acc => match acc with REps => r | _ => RCat r acc end) REps rs.

Fixpoint chars (s : string) : list regex :=
  match s with
  | EmptyString => []
  | String a s' => RChr a :: chars s'
  end.

(** [\d] *)
Definition digit : regex := RSet false [CDigit].
(** [[0-9]] *)
Definition num_set : regex := RSet false [CRange "0" "9"].
(** [[a-zA-Z0-9]] *)
Definition alnum_set : regex :=
  RSet false [CRange "a" "z"; CRange "A" "Z"; CRange "0" "9"].
(** [[a-zA-Z0-9_/.\-]] *)
Definition path_set : regex :=
  RSet false [CRange "a" "z"; CRange "A" "Z"; CRange "0" "9";
              CChr "_"; CChr "/"; CChr "."; CChr "-"].
(** [[^ \t\n]] *)
Definition nonspace : regex := RSet true [CChr " "; CChr "009"; CChr "010"].

(** [@@ -\d+,?\d* \+(\d+)] *)
Definition hunk : regex := Eval cbv in
  seq (chars "@@ -" ++ [RPlus digit; ROpt (RChr ","); RStar digit]
       ++ chars " +" ++ [RGroup 1 (RPlus digit)]).

(** [(:[0-9]+)?] as group [i] *)
Definition colon_number (i : nat) : regex :=
  ROpt (RGroup i (RCat (RChr ":") (RPlus num_set))).

(** The plain pattern. *)
Definition plain : regex := Eval cbv in
  seq [RAlt RBol (RBehind false (RChr " "));
       RAhead true (RCat (RSet false [CChr "a"; CChr "b"]) (RChr "/"));
       RGroup 1 (seq [RPlus path_set; RChr "."; RPlus alnum_set]);
       colon_number 2;
       colon_number 3;
       RAhead false (RAlt REol (RSet false [CChr " "; CChr "009"]))].

(** [(?<=prefix)[^ \t\n]+] *)
Definition header (prefix : string) : regex :=
  RCat (RBehind false (seq (chars prefix))) (RPlus nonspace).

(** [@@ [^@]+ @@] *)
Definition hunk_token : regex :=
  seq (chars "@@ " ++ [RPlus (RSet true [CChr "@"])] ++ chars " @@").

(** The git diff pattern: three file headers, the hunk token, the
    plain pattern. *)
Definition git_diff : regex := Eval cbv in
  RAlt (header "--- a/")
    (RAlt (header "+++ b/")
       (RAlt (header "diff --git a/")
          (RAlt hunk_token plain))).

End Ast.

(** The character sets of the plain pattern, as predicates. *)
Definition is_path_char : ascii -> bool :=
  Re.in_set false [Re.CRange "a" "z"; Re.CRange "A" "Z"; Re.CRange "0" "9";
                   Re.CChr "_"; Re.CChr "/"; Re.CChr "."; Re.CChr "-"].
Definition is_alnum_char : ascii -> bool :=
  Re.in_set false [Re.CRange "a" "z"; Re.CRange "A" "Z"; Re.CRange "0" "9"].
Definition is_num_char : ascii -> bool :=
  Re.in_set false [Re.CRange "0" "9"].
(** [\d] *)
Definition is_digit_char : ascii -> bool := Re.in_set false [Re.CDigit].

(** ** Sample hosts and configurations *)

(** A project directory holding [src/foo.py], and a library tree. *)
Definition sample_host : Host :=
  {| host_cwd := PStr "/home/u/proj";
     path_exists := fun p =>
       String.eqb p "/home/u/proj/src/foo.py" || String.eqb p "/etc/app.conf";
     expanduser := fun p => p;
     walk := fun root =>
       if String.eqb root "/lib"
       then [("/lib", ["x"], ["a.py"]); ("/lib/x", [], ["bar.py"; "util.py"])]
       else [] |}.

(** A host on which no path exists. *)
Definition bare_host : Host :=
  {| host_cwd := PStr "/home/u/proj";
     path_exists := fun _ => false;
     expanduser := fun p => p;
     walk := fun _ => [] |}.

(** The configuration saved with git diff support on. *)
Definition git_config : gmap string pyval :=
  <["libdir" := PStr "/lib"]>
    (<["match" := PStr GIT_DIFF_REGEX]>
       (<["git_diff_support" := PBool true]> default_config)).

(** The configuration saved with git diff support off. *)
Definition plain_config : gmap string pyval :=
  <["libdir" := PStr "/lib"]>
    (<["git_diff_support" := PBool false]> default_config).

(** [[^ \t\n]] as a predicate. *)
Definition is_nonspace_char : ascii -> bool :=
  Re.in_set true [Re.CChr " "; Re.CChr "009"; Re.CChr "010"].

(** ** The callback *)

(** [s.replace(old, new)] for a non-empty [old]: occurrences are
    replaced from left to right and do not overlap; [skip] counts the
    characters of a replaced occurrence still to pass over. *)
Fixpoint replace_from (old new : string) (skip : nat) (s : string) : string :=
  match s with
  | EmptyString => EmptyString
  | String a s' =>
      match skip with
      | S k => replace_from old new k s'
      | O =>
          if Str.startswith old s
          then new +:+ replace_from old new (String.length old - 1) s'
          else String a (replace_from old new 0 s')
      end
  end.

(** [s.replace("", new)]: [new] before every character and at the end. *)
Fixpoint replace_empty (new s : string) : string :=
  match s with
  | EmptyString => new
  | String a s' => new +:+ String a (replace_empty new s')
  end.

Definition str_replace (old new s : string) : string :=
  match old with
  | EmptyString => replace_empty new s
  | String _ _ => replace_from old new 0 s
  end.

(** The three replacements of [callback], in its order. *)
Definition substitute (command filepath line column : string) : string :=
  str_replace "{column}" column
    (str_replace "{line}" line
       (str_replace "{filepath}" filepath command)).












(** A command template as literal text and placeholders. *)
Inductive segment :=
| Lit (text : string)
| FilePath
| Line
| Column.

Fixpoint render_with (value : segment -> string) (template : list segment)
    : string :=
  match template with
  | [] => EmptyString
  | seg :: rest => value seg +:+ render_with value rest
  end.

Definition values (filepath line column : string) (seg : segment) : string :=
  match seg with
  | Lit text => text
  | FilePath => filepath
  | Line => line
  | Column => column
  end.

(** The template with each placeholder replaced at once. *)
Definition render (filepath line column : string) (template : list segment)
    : string :=
  render_with (values filepath line column) template.

(** The template as the text of the [command] setting. *)
Definition template_text (template : list segment) : string :=
  render "{filepath}" "{line}" "{column}" template.

Definition brace_free (s : string) : bool := negb (Str.contains "{" s).

Definition literals_brace_free (template : list segment) : bool :=
  forallb (fun seg => match seg with
                      | Lit text => brace_free text
                      | _ => true
                      end) template.


(** ** Auxiliary notions for the proofs *)

(** The matcher's choice among the ways to split [w ++ rest] inside [w],
    longest first. *)
Fixpoint try_splits (k : Re.mstate -> option Re.mstate)
    (bef w rest : string) (cs : list (option string)) : option Re.mstate :=
  match w with
  | EmptyString => k (Re.MState bef rest cs)
  | String a w' =>
      match try_splits k (String a bef) w' rest cs with
      | Some res => Some res
      | None => k (Re.MState bef (String a w' +:+ rest) cs)
      end
  end.

(** [rest] is empty or starts with a character outside [p]. *)
Definition stops (p : ascii -> bool) (rest : string) : Prop :=
  match rest with
  | EmptyString => True
  | String a _ => p a = false
  end.

(** [x] holds no occurrence of [old] and no beginning of one that
    what follows could complete: a replacement passes over it. *)
Definition inert (old x : string) : Prop :=
  forall new s,
    replace_from old new 0 (x +:+ s) = x +:+ replace_from old new 0 s.

(** ** Facts about strings *)

Section StringFacts.

Lemma append_assoc (a b c : string) : (a +:+ b) +:+ c = a +:+ (b +:+ c).
Proof. induction a as [|x a IH]; simpl; [reflexivity | now rewrite IH]. Qed.

Lemma append_empty_r (a : string) : a +:+ "" = a.
Proof. induction a as [|x a IH]; simpl; [reflexivity | now rewrite IH]. Qed.

Lemma length_append (a b : string) :
  String.length (a +:+ b) = String.length a + String.length b.
Proof. induction a as [|x a IH]; simpl; [reflexivity | now rewrite IH]. Qed.

Lemma substring_prefix (w rest : string) :
  String.substring 0 (String.length w) (w +:+ rest) = w.
Proof.
  induction w as [|x w IH]; simpl.
  - destruct rest; reflexivity.
  - now rewrite IH.
Qed.

Lemma all_append (p : ascii -> bool) (a b : string) :
  Str.all p (a +:+ b) = Str.all p a && Str.all p b.
Proof.
  induction a as [|x a IH]; simpl; [reflexivity |].
  rewrite IH. now rewrite andb_assoc.
Qed.

Lemma endswith_refl (p : string) : Str.endswith p p = true.
Proof.
  destruct p as [|a p]; [reflexivity |].
  unfold Str.endswith; fold Str.endswith.
  now rewrite String.eqb_refl.
Qed.

Lemma endswith_append (a p : string) : Str.endswith p (a +:+ p) = true.
Proof.
  induction a as [|x a IH]; simpl.
  - apply endswith_refl.
  - rewrite IH. apply orb_true_r.
Qed.

Lemma endswith_append_l (a p q : string) :
  Str.endswith p q = true -> Str.endswith p (a +:+ q) = true.
Proof.
  intros H. induction a as [|x a IH]; simpl; [exact H |].
  rewrite IH. apply orb_true_r.
Qed.

End StringFacts.

(** ** Facts about the matcher *)

Section MatcherFacts.

Variable p : ascii -> bool.
Variable k : Re.mstate -> option Re.mstate.

(** The greedy loop over a one-character body visits the splits of a
    maximal run longest first. *)
Lemma star_loop_run (w : string) :
  forall (bef rest : string) (cs : list (option string)) (n : nat),
    Str.all p w = true -> stops p rest ->
    String.length (w +:+ rest) < n ->
    Re.star_loop (Re.step p) k n (Re.MState bef (w +:+ rest) cs)
    = try_splits k bef w rest cs.
Proof.
  induction w as [|a w IH]; intros bef rest cs n Hall Hstop Hn.
  - destruct n as [|n]; [simpl in Hn; lia |].
    simpl. unfold Re.step. simpl.
    destruct rest as [|b rest]; [reflexivity |].
    simpl in Hstop. now rewrite Hstop.
  - destruct n as [|n]; [simpl in Hn; lia |].
    simpl in Hall. apply andb_true_iff in Hall as [Ha Hw].
    simpl. unfold Re.step at 1. simpl. rewrite Ha.
    unfold Re.advance. simpl.
    replace (String.length (w +:+ rest) <? S (String.length (w +:+ rest)))
      with true by (symmetry; apply Nat.ltb_lt; lia).
    rewrite IH; [reflexivity | assumption | assumption | simpl in Hn; lia].
Qed.

(** A continuation that accepts the longest split decides the loop. *)
Lemma try_splits_longest (w : string) :
  forall (bef rest : string) (cs : list (option string)) (res : Re.mstate),
    k (Re.MState (Str.revapp w bef) rest cs) = Some res ->
    try_splits k bef w rest cs = Some res.
Proof.
  induction w as [|a w IH]; intros bef rest cs res Hk; simpl in *.
  - exact Hk.
  - now rewrite (IH _ _ _ _ Hk).
Qed.

(** Splits the continuation rejects are passed over. *)
Lemma try_splits_none (w : string) :
  forall (bef rest : string) (cs : list (option string)),
    (forall u v, w = u +:+ v -> u <> "" ->
       k (Re.MState (Str.revapp u bef) (v +:+ rest) cs) = None) ->
    try_splits k bef w rest cs = k (Re.MState bef (w +:+ rest) cs).
Proof.
  induction w as [|a w IH]; intros bef rest cs Hnone; simpl.
  - reflexivity.
  - rewrite IH.
    + pose proof (Hnone (String a "") w eq_refl ltac:(discriminate)) as H.
      simpl in H. now rewrite H.
    + intros u v Huv Hu.
      apply (Hnone (String a u) v); [simpl; now rewrite Huv | discriminate].
Qed.

Lemma try_splits_skip (w1 : string) :
  forall (w2 bef rest : string) (cs : list (option string)),
    (forall u v, w2 = u +:+ v -> u <> "" ->
       k (Re.MState (Str.revapp u (Str.revapp w1 bef)) (v +:+ rest) cs) = None) ->
    try_splits k bef (w1 +:+ w2) rest cs
    = try_splits k bef w1 (w2 +:+ rest) cs.
Proof.
  induction w1 as [|a w1 IH]; intros w2 bef rest cs Hnone; simpl.
  - now apply try_splits_none.
  - rewrite IH by exact Hnone. now rewrite append_assoc.
Qed.

Lemma exec_chr (c : ascii) (bef s : string) (cs : list (option string)) :
  Re.exec (Re.RChr c) (Re.MState bef (String c s) cs) k
  = k (Re.MState (String c bef) s cs).
Proof. simpl. unfold Re.step. simpl. now rewrite Ascii.eqb_refl. Qed.

End MatcherFacts.

(** A greedy [+] over a character set, read on a maximal run [w1 ++ w2]:
    the continuation rejects every split inside [w2] and accepts the one
    after [w1]. *)
Lemma exec_plus_set (k : Re.mstate -> option Re.mstate)
    (neg : bool) (items : list Re.citem)
    (w1 w2 bef rest : string) (cs : list (option string)) (res : Re.mstate) :
  w1 <> "" ->
  Str.all (Re.in_set neg items) w1 = true ->
  Str.all (Re.in_set neg items) w2 = true ->
  stops (Re.in_set neg items) rest ->
  (forall u v, w2 = u +:+ v -> u <> "" ->
     k (Re.MState (Str.revapp u (Str.revapp w1 bef)) (v +:+ rest) cs) = None) ->
  k (Re.MState (Str.revapp w1 bef) (w2 +:+ rest) cs) = Some res ->
  Re.exec (Re.RPlus (Re.RSet neg items))
          (Re.MState bef (w1 +:+ w2 +:+ rest) cs) k = Some res.
Proof.
  intros Hne H1 H2 Hstop Hnone Hk.
  destruct w1 as [|a w1]; [congruence |].
  simpl in H1. apply andb_true_iff in H1 as [Ha H1].
  change (Re.step (Re.in_set neg items)
            (Re.MState bef (String a (w1 +:+ w2 +:+ rest)) cs)
            (fun st' => Re.star_loop (Re.step (Re.in_set neg items)) k
                          (S (String.length (Re.after st'))) st') = Some res).
  unfold Re.step at 1, Re.advance. cbn [Re.after Re.before Re.caps].
  rewrite Ha, <- append_assoc.
  rewrite star_loop_run; [| rewrite all_append, H1, H2; reflexivity | exact Hstop | lia].
  rewrite try_splits_skip by exact Hnone.
  now apply try_splits_longest.
Qed.

(** The same for a greedy [*], whose run may be empty. *)
Lemma exec_star_set (k : Re.mstate -> option Re.mstate)
    (neg : bool) (items : list Re.citem)
    (w bef rest : string) (cs : list (option string)) (res : Re.mstate) :
  Str.all (Re.in_set neg items) w = true ->
  stops (Re.in_set neg items) rest ->
  k (Re.MState (Str.revapp w bef) rest cs) = Some res ->
  Re.exec (Re.RStar (Re.RSet neg items)) (Re.MState bef (w +:+ rest) cs) k
  = Some res.
Proof.
  intros Hw Hstop Hk.
  change (Re.star_loop (Re.step (Re.in_set neg items)) k
            (S (String.length (w +:+ rest))) (Re.MState bef (w +:+ rest) cs)
          = Some res).
  rewrite star_loop_run; [| exact Hw | exact Hstop | lia].
  now apply try_splits_longest.
Qed.

Lemma consumed_prefix (bef bef' w rest : string) (cs cs' : list (option string)) :
  Re.consumed (Re.MState bef (w +:+ rest) cs) (Re.MState bef' rest cs') = w.
Proof.
  unfold Re.consumed. simpl. rewrite length_append.
  replace (String.length w + String.length rest - String.length rest)
    with (String.length w) by lia.
  apply substring_prefix.
Qed.

Lemma consumed_all (bef bef' s : string) (cs cs' : list (option string)) :
  Re.consumed (Re.MState bef s cs) (Re.MState bef' "" cs') = s.
Proof.
  rewrite <- (append_empty_r s) at 1. apply consumed_prefix.
Qed.


Lemma exec_cat (r1 r2 : Re.regex) (st : Re.mstate)
    (k : Re.mstate -> option Re.mstate) :
  Re.exec (Re.RCat r1 r2) st k = Re.exec r1 st (fun st' => Re.exec r2 st' k).
Proof. reflexivity. Qed.

Lemma exec_alt_l (r1 r2 : Re.regex) (st : Re.mstate)
    (k : Re.mstate -> option Re.mstate) (res : Re.mstate) :
  Re.exec r1 st k = Some res -> Re.exec (Re.RAlt r1 r2) st k = Some res.
Proof. intros H. simpl. now rewrite H. Qed.

Lemma exec_alt_r (r1 r2 : Re.regex) (st : Re.mstate)
    (k : Re.mstate -> option Re.mstate) (res : option Re.mstate) :
  Re.exec r1 st k = None -> Re.exec r2 st k = res ->
  Re.exec (Re.RAlt r1 r2) st k = res.
Proof. intros H1 H2. simpl. now rewrite H1. Qed.

Lemma exec_opt_take (r : Re.regex) (st : Re.mstate)
    (k : Re.mstate -> option Re.mstate) (res : Re.mstate) :
  Re.exec r st k = Some res -> Re.exec (Re.ROpt r) st k = Some res.
Proof. intros H. simpl. now rewrite H. Qed.

Lemma exec_opt_skip (r : Re.regex) (st : Re.mstate)
    (k : Re.mstate -> option Re.mstate) (res : option Re.mstate) :
  Re.exec r st k = None -> k st = res -> Re.exec (Re.ROpt r) st k = res.
Proof. intros H1 H2. simpl. now rewrite H1. Qed.

Lemma exec_group (i : nat) (r : Re.regex) (st : Re.mstate)
    (k : Re.mstate -> option Re.mstate) :
  Re.exec (Re.RGroup i r) st k
  = Re.exec r st (fun st' =>
      k (Re.MState (Re.before st') (Re.after st')
                   (<[pred i := Some (Re.consumed st st')]> (Re.caps st')))).
Proof. reflexivity. Qed.

(** A literal character followed by more of the pattern. *)
Ltac re_chr := rewrite exec_cat, exec_chr; cbv beta.

(** ** The patterns are read as their syntax trees *)

Lemma compile_hunk : Re.compile HUNK_REGEX = Some (Ast.hunk, 1).
Proof. vm_compute. reflexivity. Qed.

Lemma compile_default : Re.compile DEFAULT_REGEX = Some (Ast.plain, 3).
Proof. vm_compute. reflexivity. Qed.

Lemma compile_git_diff : Re.compile GIT_DIFF_REGEX = Some (Ast.git_diff, 3).
Proof. vm_compute. reflexivity. Qed.

Lemma all_not_contains (c : ascii) (s : string) :
  Str.contains c s = false -> Str.all (Re.in_set true [Re.CChr c]) s = true.
Proof.
  induction s as [|a s IH]; simpl; [reflexivity |].
  intros H. apply orb_false_iff in H as [Ha Hs].
  rewrite (IH Hs). unfold Re.in_set. simpl. now rewrite Ha.
Qed.

(** Re-matched from its start, a hunk token takes the fourth alternative
    of the git diff pattern and sets no group. *)
Lemma git_diff_matches_hunk_token (body : string) :
  body <> "" -> Str.contains "@" body = false ->
  Re.re_match GIT_DIFF_REGEX ("@@ " +:+ body +:+ " @@")
  = Some (Some (Re.RMatch ("@@ " +:+ body +:+ " @@") [None; None; None])).
Proof.
  intros Hne Hat. unfold Re.re_match. rewrite compile_git_diff.
  unfold Re.attempt, Re.start_state.
  assert (exists bef',
    Re.exec Ast.git_diff
      (Re.MState "" ("@@ " +:+ body +:+ " @@") (replicate 3 None)) Some
    = Some (Re.MState bef' "" [None; None; None])) as [bef' E].
  { eexists. unfold Ast.git_diff.
    do 3 (apply exec_alt_r; [reflexivity |]).
    apply exec_alt_l.
    change ("@@ " +:+ body +:+ " @@")
      with (String "@" (String "@" (String " " (body +:+ " " +:+ "@@")))).
    do 3 re_chr. rewrite exec_cat.
    apply exec_plus_set;
      [ exact Hne | now apply all_not_contains | reflexivity | reflexivity | | ].
    - intros u v Huv Hu.
      destruct u as [|a [|b u]]; [congruence | | discriminate].
      destruct v; [| discriminate]. reflexivity.
    - cbv beta. change (" " +:+ "@@") with (String " " (String "@" (String "@" ""))).
      do 2 re_chr. rewrite exec_chr. reflexivity. }
  rewrite E. now rewrite consumed_all.
Qed.

Lemma consumed_eq (st st' : Re.mstate) (w : string) :
  Re.after st = w +:+ Re.after st' -> Re.consumed st st' = w.
Proof.
  destruct st as [b a c], st' as [b' a' c']. simpl. intros ->.
  apply consumed_prefix.
Qed.

Lemma exec_bol (s : string) (cs : list (option string))
    (k : Re.mstate -> option Re.mstate) :
  Re.exec Re.RBol (Re.MState "" s cs) k = k (Re.MState "" s cs).
Proof. reflexivity. Qed.

Lemma exec_chr_mismatch (c a : ascii) (bef s : string)
    (cs : list (option string)) (k : Re.mstate -> option Re.mstate) :
  a <> c -> Re.exec (Re.RChr c) (Re.MState bef (String a s) cs) k = None.
Proof.
  intros Hne. simpl. unfold Re.step. simpl.
  destruct (Ascii.eqb_spec c a); [congruence | reflexivity].
Qed.

Lemma exec_set (neg : bool) (items : list Re.citem) (a : ascii)
    (bef s : string) (cs : list (option string))
    (k : Re.mstate -> option Re.mstate) :
  Re.exec (Re.RSet neg items) (Re.MState bef (String a s) cs) k
  = if Re.in_set neg items a then k (Re.MState (String a bef) s cs) else None.
Proof. reflexivity. Qed.

Lemma exec_ahead_neg (r : Re.regex) (st : Re.mstate)
    (k : Re.mstate -> option Re.mstate) :
  Re.exec r st Some = None -> Re.exec (Re.RAhead true r) st k = k st.
Proof. intros H. cbn [Re.exec]. now rewrite H. Qed.

(** The negative look-ahead [(?![ab]/)]. *)
Lemma exec_not_ab_slash (bef s : string) (cs : list (option string))
    (k : Re.mstate -> option Re.mstate) :
  Str.startswith "a/" s = false -> Str.startswith "b/" s = false ->
  Re.exec (Re.RAhead true
             (Re.RCat (Re.RSet false [Re.CChr "a"; Re.CChr "b"]) (Re.RChr "/")))
          (Re.MState bef s cs) k
  = k (Re.MState bef s cs).
Proof.
  intros Ha Hb. apply exec_ahead_neg.
  destruct s as [|c [|c2 s]].
  - reflexivity.
  - rewrite exec_cat, exec_set. now destruct (Re.in_set _ _ c).
  - rewrite exec_cat, exec_set.
    destruct (Re.in_set false [Re.CChr "a"; Re.CChr "b"] c) eqn:E; [| reflexivity].
    destruct (Ascii.eqb_spec c2 "/") as [->|H2]; [| now apply exec_chr_mismatch].
    exfalso. unfold Re.in_set in E. cbn [existsb xorb Re.in_item] in E.
    cbn [Str.startswith] in Ha, Hb.
    rewrite Ascii.eqb_refl, (Ascii.eqb_sym _ c) in Ha.
    rewrite Ascii.eqb_refl, (Ascii.eqb_sym _ c) in Hb.
    destruct (Ascii.eqb c "a"), (Ascii.eqb c "b"); simpl in *; congruence.
Qed.

Lemma alnum_is_path_char (a : ascii) :
  is_alnum_char a = true -> is_path_char a = true.
Proof.
  unfold is_alnum_char, is_path_char, Re.in_set. cbn [existsb xorb].
  destruct (Re.in_item a (Re.CRange "a" "z")),
           (Re.in_item a (Re.CRange "A" "Z")),
           (Re.in_item a (Re.CRange "0" "9")); simpl; congruence.
Qed.

Lemma all_impl (p q : ascii -> bool) (s : string) :
  (forall a, p a = true -> q a = true) ->
  Str.all p s = true -> Str.all q s = true.
Proof.
  intros Hpq. induction s as [|a s IH]; simpl; [reflexivity |].
  intros H. apply andb_true_iff in H as [Ha Hs].
  now rewrite (Hpq _ Ha), (IH Hs).
Qed.

Lemma empty_split (u v : string) : "" = u +:+ v -> u <> "" -> False.
Proof. destruct u; simpl; [congruence | discriminate]. Qed.


Lemma scan_here (r : Re.regex) (g : nat) (bef s : string) (m : Re.rmatch) :
  Re.attempt r g bef s = Some m -> Re.scan r g bef s = Some m.
Proof. intros H. destruct s; simpl; now rewrite H. Qed.

(** The hunk pattern on [@@ -a,b +c...] (or [@@ -a +c...]): group 1 is
    the run of digits after the plus sign. *)
Lemma hunk_search_number (comma : bool) (a b c rest : string) :
  a <> "" -> Str.all is_digit_char a = true ->
  Str.all is_digit_char b = true -> (comma = false -> b = "") ->
  c <> "" -> Str.all is_digit_char c = true ->
  stops is_digit_char rest ->
  Re.re_search HUNK_REGEX
    ("@@ -" +:+ a +:+ (if comma then "," else "") +:+ b +:+ " +" +:+ c +:+ rest)
  = Some (Some (Re.RMatch
       ("@@ -" +:+ a +:+ (if comma then "," else "") +:+ b +:+ " +" +:+ c)
       [Some c])).
Proof.
  intros Ha Hac Hbc Hb Hc Hcc Hrest.
  unfold Re.re_search. rewrite compile_hunk. f_equal.
  apply scan_here. unfold Re.attempt, Re.start_state.
  assert (exists bef',
    Re.exec Ast.hunk
      (Re.MState ""
         ("@@ -" +:+ a +:+ (if comma then "," else "") +:+ b +:+ " +" +:+ c +:+ rest)
         (replicate 1 None)) Some
    = Some (Re.MState bef' rest [Some c])) as [bef' E].
  { destruct comma; eexists; unfold Ast.hunk; simpl String.append;
      do 4 re_chr; rewrite exec_cat.
    - apply (exec_plus_set _ false _ a "" _ ("," +:+ b +:+ " +" +:+ c +:+ rest));
        [ exact Ha | exact Hac | reflexivity | reflexivity | | ].
      { intros u v Huv Hu. destruct (empty_split _ _ Huv Hu). }
      cbv beta. simpl String.append.
      rewrite exec_cat. apply exec_opt_take. rewrite exec_chr.
      rewrite exec_cat.
      apply (exec_star_set _ false _ b _ (" +" +:+ c +:+ rest));
        [ exact Hbc | reflexivity | ].
      cbv beta. simpl String.append. do 2 re_chr. rewrite exec_group.
      apply (exec_plus_set _ false _ c "" _ rest);
        [ exact Hc | exact Hcc | reflexivity | exact Hrest | | ].
      { intros u v Huv Hu. destruct (empty_split _ _ Huv Hu). }
      cbv beta. cbn [Re.before Re.after Re.caps]. simpl String.append.
      rewrite (consumed_eq _ _ c) by reflexivity. reflexivity.
    - rewrite (Hb eq_refl). simpl String.append.
      apply (exec_plus_set _ false _ a "" _ (" +" +:+ c +:+ rest));
        [ exact Ha | exact Hac | reflexivity | reflexivity | | ].
      { intros u v Huv Hu. destruct (empty_split _ _ Huv Hu). }
      cbv beta. simpl String.append.
      rewrite exec_cat. apply exec_opt_skip; [now apply exec_chr_mismatch |].
      rewrite exec_cat.
      apply (exec_star_set _ false _ "" _ (" +" +:+ c +:+ rest));
        [ reflexivity | reflexivity | ].
      cbv beta. simpl String.append. do 2 re_chr. rewrite exec_group.
      apply (exec_plus_set _ false _ c "" _ rest);
        [ exact Hc | exact Hcc | reflexivity | exact Hrest | | ].
      { intros u v Huv Hu. destruct (empty_split _ _ Huv Hu). }
      cbv beta. cbn [Re.before Re.after Re.caps]. simpl String.append.
      rewrite (consumed_eq _ _ c) by reflexivity. reflexivity. }
  rewrite E. do 2 f_equal.
  apply consumed_eq. simpl.
  rewrite !append_assoc. reflexivity.
Qed.

(** ** Facts about the resolver *)

Lemma py_search_hunk (s : string) :
  py_search HUNK_REGEX s = Ok (Re.scan Ast.hunk 1 "" s).
Proof. unfold py_search, Re.re_search. now rewrite compile_hunk. Qed.

Lemma file_shaped_true (s : string) :
  file_shaped s = true ->
  Str.contains "/" s || Str.contains "." s = true /\ Str.startswith "@@" s = false.
Proof.
  unfold file_shaped. intros H. apply andb_true_iff in H as [H1 H2].
  split; [exact H1 | now apply negb_true_iff].
Qed.

Lemma startswith_not_file_shaped (s : string) :
  Str.startswith "@@" s = true -> file_shaped s = false.
Proof. unfold file_shaped. intros ->. apply andb_false_r. Qed.

(** With git diff support off only the configured pattern is used. *)
Lemma get_filepath_disabled (h : Host) (cfg : gmap string pyval)
    (s : string) (ctx : DiffContext) :
  git_diff_enabled cfg = false ->
  get_filepath h cfg s ctx = (plain_reference h cfg s, ctx).
Proof. intros H. unfold get_filepath. now rewrite H. Qed.

(** The file-header branch. *)
Lemma get_filepath_file_header (h : Host) (cfg : gmap string pyval)
    (s : string) (ctx : DiffContext) :
  git_diff_enabled cfg = true -> file_shaped s = true ->
  get_filepath h cfg s ctx
  = (filepath ← join_cwd h s; mret (PStr filepath, PStr "1", PStr "1"),
     {| ctx_file := PStr s; ctx_line := PNone |}).
Proof.
  intros Hen Hfs. destruct (file_shaped_true _ Hfs) as [Hc Hs].
  unfold get_filepath, update_git_diff_context.
  rewrite Hen, Hfs, Hs, Hc.
  unfold mbind, M_bind, put_context, lift, get_context, mret, M_ret. simpl.
  destruct (join_cwd h s); reflexivity.
Qed.

(** The hunk-header branch with a known file. *)
Lemma get_filepath_hunk_known (h : Host) (cfg : gmap string pyval)
    (s : string) (ctx : DiffContext) (m : Re.rmatch) :
  git_diff_enabled cfg = true -> Str.startswith "@@" s = true ->
  Re.scan Ast.hunk 1 "" s = Some m -> truthy (ctx_file ctx) = true ->
  get_filepath h cfg s ctx
  = (file ← as_str TypeError (ctx_file ctx);
     filepath ← join_cwd h file;
     mret (PStr filepath, py_of_option (Re.group m 1), PStr "1"),
     {| ctx_file := ctx_file ctx; ctx_line := py_of_option (Re.group m 1) |}).
Proof.
  intros Hen Hs Hm Hf.
  unfold get_filepath, update_git_diff_context.
  rewrite Hen, Hs, (startswith_not_file_shaped _ Hs), py_search_hunk, Hm.
  unfold mbind, M_bind, put_context, lift, get_context, mret, M_ret. simpl.
  rewrite Hf.
  destruct (as_str TypeError (ctx_file ctx)) as [file|e]; simpl; [| reflexivity].
  destruct (join_cwd h file); reflexivity.
Qed.

(** Every other fragment is left to the configured pattern; the
    tracker's file is not touched. *)
Lemma get_filepath_fallback (h : Host) (cfg : gmap string pyval)
    (s : string) (ctx : DiffContext) :
  git_diff_enabled cfg = true -> file_shaped s = false ->
  (Str.startswith "@@" s = true ->
   Re.scan Ast.hunk 1 "" s = None \/ truthy (ctx_file ctx) = false) ->
  exists ctx1,
    ctx_file ctx1 = ctx_file ctx /\
    get_filepath h cfg s ctx = (plain_reference h cfg s, ctx1).
Proof.
  intros Hen Hfs Hhunk.
  unfold get_filepath, update_git_diff_context.
  rewrite Hen, Hfs, py_search_hunk.
  unfold mbind, M_bind, put_context, lift, get_context, mret, M_ret.
  destruct (Str.startswith "@@" s) eqn:Hs.
  - destruct (Hhunk eq_refl) as [Hm | Hf].
    + rewrite Hm. simpl. eexists; (split; [| reflexivity]); reflexivity.
    + destruct (Re.scan Ast.hunk 1 "" s) as [m|]; simpl.
      * rewrite Hf. eexists; (split; [| reflexivity]); reflexivity.
      * eexists; (split; [| reflexivity]); reflexivity.
  - assert (Str.contains "/" s || Str.contains "." s = false) as Hc.
    { unfold file_shaped in Hfs. rewrite Hs in Hfs. simpl in Hfs.
      now rewrite andb_true_r in Hfs. }
    rewrite Hc.
    destruct (Re.scan Ast.hunk 1 "" s) as [m|]; simpl;
      eexists; (split; [| reflexivity]); reflexivity.
Qed.

Lemma join_endswith (a b : string) : Str.endswith b (OsPath.join a b) = true.
Proof.
  unfold OsPath.join.
  destruct (Str.startswith "/" b); [apply endswith_refl |].
  destruct (String.eqb a "" || Str.endswith "/" a).
  - apply endswith_append.
  - apply endswith_append_l. apply (endswith_append "/").
Qed.

(** ** The diff context tracker *)

(** C5: the tracker update on a file-shaped fragment sets the file to
    the fragment and clears the line; on any other fragment that the
    number pattern matches it sets the line to group 1 and keeps the
    file; on any other fragment that the pattern does not match it
    changes nothing.  On a hunk header [@@ -a,b +c...] (or
    [@@ -a +c...]) group 1 is [c], the digits after the plus sign. *)
Theorem update_git_diff_context_effects (ctx : DiffContext) :
  (forall s, file_shaped s = true ->
     update_git_diff_context s ctx
     = (Ok tt, {| ctx_file := PStr s; ctx_line := PNone |}))
  /\ (forall s m, file_shaped s = false ->
        Re.re_search HUNK_REGEX s = Some (Some m) ->
        update_git_diff_context s ctx
        = (Ok tt, {| ctx_file := ctx_file ctx;
                     ctx_line := py_of_option (Re.group m 1) |}))
  /\ (forall s, file_shaped s = false ->
        Re.re_search HUNK_REGEX s = Some None ->
        update_git_diff_context s ctx = (Ok tt, ctx))
  /\ (forall (comma : bool) a b c rest,
        a <> "" -> Str.all is_digit_char a = true ->
        Str.all is_digit_char b = true -> (comma = false -> b = "") ->
        c <> "" -> Str.all is_digit_char c = true ->
        stops is_digit_char rest ->
        update_git_diff_context
          ("@@ -" +:+ a +:+ (if comma then "," else "") +:+ b
           +:+ " +" +:+ c +:+ rest) ctx
        = (Ok tt, {| ctx_file := ctx_file ctx; ctx_line := PStr c |})).
Proof.
  repeat split.
  - intros s Hs. unfold update_git_diff_context. now rewrite Hs.
  - intros s m Hs Hm. unfold update_git_diff_context, py_search.
    now rewrite Hs, Hm.
  - intros s Hs Hm. unfold update_git_diff_context, py_search.
    now rewrite Hs, Hm.
  - intros comma a b c rest Ha Hac Hbc Hb Hc Hcc Hrest.
    unfold update_git_diff_context, py_search.
    rewrite (hunk_search_number comma a b c rest) by assumption.
    rewrite startswith_not_file_shaped by reflexivity.
    reflexivity.
Qed.

Lemma update_git_diff_context_effects_witness :
  update_git_diff_context "src/foo.py"
    {| ctx_file := PStr "old.txt"; ctx_line := PStr "7" |}
  = (Ok tt, {| ctx_file := PStr "src/foo.py"; ctx_line := PNone |})
  /\ update_git_diff_context "@@ -71,7 +72,9 @@"
       {| ctx_file := PStr "old.txt"; ctx_line := PStr "7" |}
     = (Ok tt, {| ctx_file := PStr "old.txt"; ctx_line := PStr "72" |})
  /\ update_git_diff_context "@@ broken @@"
       {| ctx_file := PStr "old.txt"; ctx_line := PStr "7" |}
     = (Ok tt, {| ctx_file := PStr "old.txt"; ctx_line := PStr "7" |}).
Proof.
  destruct (update_git_diff_context_effects
              {| ctx_file := PStr "old.txt"; ctx_line := PStr "7" |})
    as (H1 & _ & H3 & H4).
  split; [| split].
  - apply (H1 "src/foo.py"). reflexivity.
  - apply (H4 true "71" "7" "72" ",9 @@");
      (reflexivity || discriminate).
  - apply (H3 "@@ broken @@"); vm_compute; reflexivity.
Defined.

(** ** The resolver *)

(** C6: resolving a fragment again right after it was resolved, from
    the tracker the first call left, gives the same outcome. *)
Theorem get_filepath_twice (h : Host) (cfg : gmap string pyval)
    (s : string) (ctx : DiffContext) :
  (get_filepath h cfg s (get_filepath h cfg s ctx).2).1
  = (get_filepath h cfg s ctx).1.
Proof.
  destruct (git_diff_enabled cfg) eqn:Hen.
  2: { now rewrite !get_filepath_disabled by assumption. }
  destruct (file_shaped s) eqn:Hfs.
  { now rewrite !get_filepath_file_header by assumption. }
  destruct (Str.startswith "@@" s) eqn:Hs.
  - destruct (Re.scan Ast.hunk 1 "" s) as [m|] eqn:Hm.
    + destruct (truthy (ctx_file ctx)) eqn:Hf.
      * rewrite (get_filepath_hunk_known h cfg s ctx m) by assumption.
        cbn [fst snd].
        now rewrite (get_filepath_hunk_known h cfg s _ m) by assumption.
      * destruct (get_filepath_fallback h cfg s ctx Hen Hfs) as (ctx1 & Hf1 & E1);
          [intros _; now right |].
        rewrite E1. cbn [fst snd].
        destruct (get_filepath_fallback h cfg s ctx1 Hen Hfs) as (ctx2 & _ & E2);
          [intros _; right; now rewrite Hf1 |].
        now rewrite E2.
    + destruct (get_filepath_fallback h cfg s ctx Hen Hfs) as (ctx1 & Hf1 & E1);
        [intros _; now left |].
      rewrite E1. cbn [fst snd].
      destruct (get_filepath_fallback h cfg s ctx1 Hen Hfs) as (ctx2 & _ & E2);
        [intros _; now left |].
      now rewrite E2.
  - destruct (get_filepath_fallback h cfg s ctx Hen Hfs) as (ctx1 & Hf1 & E1);
      [intros; congruence |].
    rewrite E1. cbn [fst snd].
    destruct (get_filepath_fallback h cfg s ctx1 Hen Hfs) as (ctx2 & _ & E2);
      [intros; congruence |].
    now rewrite E2.
Qed.

(** C8: with git diff support on, a fragment containing [/] or [.]
    and not starting with [@@] resolves to the working directory joined
    with the whole fragment, line 1, column 1, whatever the configured
    pattern would capture in it. *)
Theorem file_shaped_fragment_joined_whole (h : Host) (cfg : gmap string pyval)
    (s cwd : string) (ctx : DiffContext) :
  git_diff_enabled cfg = true ->
  file_shaped s = true ->
  host_cwd h = PStr cwd ->
  (get_filepath h cfg s ctx).1
  = Ok (PStr (OsPath.join cwd s), PStr "1", PStr "1").
Proof.
  intros Hen Hfs Hcwd.
  rewrite get_filepath_file_header by assumption.
  unfold join_cwd. now rewrite Hcwd.
Qed.

Lemma file_shaped_fragment_joined_whole_witness :
  (get_filepath sample_host git_config "name.ext:12:3" initial_context).1
  = Ok (PStr "/home/u/proj/name.ext:12:3", PStr "1", PStr "1").
Proof.
  apply (file_shaped_fragment_joined_whole sample_host git_config
           "name.ext:12:3" "/home/u/proj" initial_context);
    reflexivity.
Defined.

(** C9: with git diff support on, the tracker update clears the cached
    line of every file-shaped fragment before the file-header branch
    reads it, so every reference that branch returns has line 1. *)
Theorem file_header_line_is_one (h : Host) (cfg : gmap string pyval)
    (s : string) (ctx : DiffContext) :
  git_diff_enabled cfg = true ->
  file_shaped s = true ->
  ctx_line (update_git_diff_context s ctx).2 = PNone
  /\ ctx_line (get_filepath h cfg s ctx).2 = PNone
  /\ forall ref, (get_filepath h cfg s ctx).1 = Ok ref -> ref_line ref = PStr "1".
Proof.
  intros Hen Hfs. split; [| split].
  - unfold update_git_diff_context. now rewrite Hfs.
  - now rewrite get_filepath_file_header by assumption.
  - intros ref. rewrite get_filepath_file_header by assumption.
    cbn [fst]. destruct (join_cwd h s); simpl; [| discriminate].
    now intros [= <-].
Qed.

Lemma file_header_line_is_one_witness :
  ctx_line (update_git_diff_context "foo.txt"
              {| ctx_file := PStr "old.txt"; ctx_line := PStr "7" |}).2 = PNone
  /\ ctx_line (get_filepath sample_host git_config "foo.txt"
                 {| ctx_file := PStr "old.txt"; ctx_line := PStr "7" |}).2 = PNone
  /\ forall ref,
       (get_filepath sample_host git_config "foo.txt"
          {| ctx_file := PStr "old.txt"; ctx_line := PStr "7" |}).1 = Ok ref ->
       ref_line ref = PStr "1".
Proof.
  apply (file_header_line_is_one sample_host git_config "foo.txt"
           {| ctx_file := PStr "old.txt"; ctx_line := PStr "7" |});
    reflexivity.
Defined.

(** C1: the lines [--- a/foo.txt], [+++ b/foo.txt], [@@ -1,3 +5,3 @@]
    yield the fragments [foo.txt], [foo.txt] and the hunk header; with
    git diff support on, resolving them in order gives for the third
    the working directory joined with [foo.txt], which ends in
    [foo.txt], line 5 and column 1. *)
Theorem diff_sequence_resolves_hunk (h : Host) (cfg : gmap string pyval)
    (cwd : string) (ctx : DiffContext) :
  git_diff_enabled cfg = true ->
  host_cwd h = PStr cwd ->
  fragment_of_line GIT_DIFF_REGEX <$>
    ["--- a/foo.txt"; "+++ b/foo.txt"; "@@ -1,3 +5,3 @@"]
  = [Ok (Some "foo.txt"); Ok (Some "foo.txt"); Ok (Some "@@ -1,3 +5,3 @@")]
  /\ (resolve_each h cfg ["foo.txt"; "foo.txt"; "@@ -1,3 +5,3 @@"] ctx).1 !! 2
     = Some (Ok (PStr (OsPath.join cwd "foo.txt"), PStr "5", PStr "1"))
  /\ Str.endswith "foo.txt" (OsPath.join cwd "foo.txt") = true.
Proof.
  intros Hen Hcwd. split; [| split].
  - vm_compute. reflexivity.
  - cbn [resolve_each].
    rewrite (get_filepath_file_header h cfg "foo.txt" ctx Hen eq_refl).
    rewrite (get_filepath_file_header h cfg "foo.txt" _ Hen eq_refl).
    rewrite (get_filepath_hunk_known h cfg "@@ -1,3 +5,3 @@" _
               (Re.RMatch "@@ -1,3 +5" [Some "5"]) Hen eq_refl);
      [| vm_compute; reflexivity | reflexivity].
    unfold join_cwd. rewrite Hcwd. reflexivity.
  - apply join_endswith.
Qed.

Lemma diff_sequence_resolves_hunk_witness :
  (resolve_each sample_host git_config
     ["foo.txt"; "foo.txt"; "@@ -1,3 +5,3 @@"] initial_context).1 !! 2
  = Some (Ok (PStr "/home/u/proj/foo.txt", PStr "5", PStr "1")).
Proof.
  apply (diff_sequence_resolves_hunk sample_host git_config
           "/home/u/proj" initial_context); reflexivity.
Defined.

Lemma re_search_hunk_none (s : string) :
  Re.re_search HUNK_REGEX s = Some None -> Re.scan Ast.hunk 1 "" s = None.
Proof.
  unfold Re.re_search. rewrite compile_hunk. now intros [= ->].
Qed.

Lemma plain_reference_nomatch (h : Host) (cfg : gmap string pyval)
    (s : string) (pattern : pyval) :
  cfg !! "match" = Some pattern -> py_match pattern s = Ok None ->
  plain_reference h cfg s = Ok empty_reference.
Proof.
  intros Hp Hm. unfold plain_reference, getitem. rewrite Hp.
  unfold mbind, result_bind. now rewrite Hm.
Qed.

(** Groups that did not take part in the match assign nothing. *)
Lemma assign_groups_unset (h : Host) (cfg : gmap string pyval)
    (gs : list (option string)) :
  forall (names : list string) (acc : Reference),
    Forall (fun g => g = None) gs ->
    assign_groups h cfg acc (zip gs names) = Ok acc.
Proof.
  induction gs as [|g gs IH]; intros names acc Hall; [reflexivity |].
  destruct names as [|n names]; [reflexivity |].
  inversion Hall as [|? ? Hg Hgs]; subst.
  cbn [zip zip_with assign_groups assign_group].
  destruct acc as [[fp ln] col]. unfold mbind, result_bind, mret, result_ret.
  now apply IH.
Qed.

(** C7 as stated fails: with git diff support on, [src/Makefile] (the
    fragment of the line [--- a/src/Makefile]) does not match the
    active pattern when re-matched from its start, and the resolver
    still returns a file path. *)
Lemma nomatch_with_filepath :
  git_config !! "match" = Some (PStr GIT_DIFF_REGEX)
  /\ fragment_of_line GIT_DIFF_REGEX "--- a/src/Makefile" = Ok (Some "src/Makefile")
  /\ py_match (PStr GIT_DIFF_REGEX) "src/Makefile" = Ok None
  /\ (get_filepath sample_host git_config "src/Makefile" initial_context).1
     = Ok (PStr "/home/u/proj/src/Makefile", PStr "1", PStr "1")
  /\ (get_filepath sample_host git_config "src/Makefile" initial_context).1
     <> Ok empty_reference.
Proof.
  repeat split; try (vm_compute; reflexivity).
  vm_compute. discriminate.
Qed.

(** C7, amended: a fragment the configured pattern does not match
    resolves, without an exception, to the empty reference (no file
    path, line 1, column 1) when git diff support is off, or when the
    fragment is not file-shaped and is not a hunk header whose number
    is found while the tracker knows a file. *)
Theorem nomatch_gives_empty_reference (h : Host) (cfg : gmap string pyval)
    (s : string) (ctx : DiffContext) (pattern : pyval) :
  cfg !! "match" = Some pattern ->
  py_match pattern s = Ok None ->
  git_diff_enabled cfg = false
  \/ (file_shaped s = false
      /\ (Str.startswith "@@" s = true ->
          Re.re_search HUNK_REGEX s = Some None
          \/ truthy (ctx_file ctx) = false)) ->
  (get_filepath h cfg s ctx).1 = Ok empty_reference.
Proof.
  intros Hp Hm [Hoff | [Hfs Hhunk]].
  - rewrite get_filepath_disabled by assumption.
    apply (plain_reference_nomatch h cfg s pattern Hp Hm).
  - destruct (git_diff_enabled cfg) eqn:Hen.
    + destruct (get_filepath_fallback h cfg s ctx Hen Hfs) as (ctx1 & _ & E).
      { intros Hs. destruct (Hhunk Hs) as [Hn | Hf];
          [left; now apply re_search_hunk_none | now right]. }
      rewrite E. apply (plain_reference_nomatch h cfg s pattern Hp Hm).
    + rewrite get_filepath_disabled by assumption.
      apply (plain_reference_nomatch h cfg s pattern Hp Hm).
Qed.

Lemma nomatch_gives_empty_reference_witness :
  (get_filepath sample_host plain_config "src/Makefile" initial_context).1
  = Ok empty_reference
  /\ (get_filepath sample_host git_config "Makefile" initial_context).1
     = Ok empty_reference.
Proof.
  split.
  - apply (nomatch_gives_empty_reference sample_host plain_config
             "src/Makefile" initial_context (PStr DEFAULT_REGEX));
      [reflexivity | vm_compute; reflexivity | left; reflexivity].
  - apply (nomatch_gives_empty_reference sample_host git_config
             "Makefile" initial_context (PStr GIT_DIFF_REGEX));
      [reflexivity | vm_compute; reflexivity |].
    right. split; [reflexivity | discriminate].
Defined.

(** C2: with git diff support on and the git diff pattern active, a
    hunk token [@@ body @@] resolved while the tracker knows no file
    raises nothing and gives the empty reference: re-matched from its
    start the token matches with all three groups unset. *)
Theorem hunk_header_without_file (h : Host) (cfg : gmap string pyval)
    (body names : string) (ctx : DiffContext) :
  git_diff_enabled cfg = true ->
  cfg !! "match" = Some (PStr GIT_DIFF_REGEX) ->
  cfg !! "groups" = Some (PStr names) ->
  body <> "" -> Str.contains "@" body = false ->
  truthy (ctx_file ctx) = false ->
  py_match (PStr GIT_DIFF_REGEX) ("@@ " +:+ body +:+ " @@")
  = Ok (Some (Re.RMatch ("@@ " +:+ body +:+ " @@") [None; None; None]))
  /\ (get_filepath h cfg ("@@ " +:+ body +:+ " @@") ctx).1 = Ok empty_reference.
Proof.
  intros Hen Hp Hg Hne Hat Hf.
  assert (py_match (PStr GIT_DIFF_REGEX) ("@@ " +:+ body +:+ " @@")
          = Ok (Some (Re.RMatch ("@@ " +:+ body +:+ " @@") [None; None; None])))
    as Hm.
  { unfold py_match. cbn [as_str mbind result_bind].
    now rewrite git_diff_matches_hunk_token. }
  split; [exact Hm |].
  destruct (get_filepath_fallback h cfg ("@@ " +:+ body +:+ " @@") ctx Hen)
    as (ctx1 & _ & E);
    [now apply startswith_not_file_shaped | intros _; now right |].
  rewrite E. cbn [fst].
  unfold plain_reference, getitem. rewrite Hp, Hg.
  cbn [mbind result_bind as_str]. rewrite Hm.
  cbn [Re.groups]. apply assign_groups_unset.
  repeat constructor.
Qed.

Lemma hunk_header_without_file_witness :
  (get_filepath sample_host git_config "@@ -1,3 +5,3 @@" initial_context).1
  = Ok empty_reference.
Proof.
  apply (hunk_header_without_file sample_host git_config "-1,3 +5,3"
           DEFAULT_GROUPS initial_context);
    (reflexivity || discriminate).
Defined.

(** ** Path resolution *)

Lemma find_in_dir_absent (filename dirpath : string) (fs : list string) :
  filename ∉ fs -> find_in_dir filename dirpath fs = None.
Proof.
  induction fs as [|f fs IH]; intros Hnot; [reflexivity |].
  apply not_elem_of_cons in Hnot as [Hne Hnot]. simpl.
  destruct (String.eqb_spec f filename) as [->|_]; [congruence | now apply IH].
Qed.

Lemma find_in_dir_first (filename dirpath : string) (fs1 fs2 : list string) :
  filename ∉ fs1 ->
  find_in_dir filename dirpath (fs1 ++ filename :: fs2)
  = Some (OsPath.join dirpath filename).
Proof.
  induction fs1 as [|f fs1 IH]; intros Hnot; simpl.
  - now rewrite String.eqb_refl.
  - apply not_elem_of_cons in Hnot as [Hne Hnot].
    destruct (String.eqb_spec f filename) as [->|_]; [congruence | now apply IH].
Qed.

Lemma find_in_walk_absent (filename : string)
    (triples : list (string * list string * list string)) :
  (forall t, t ∈ triples -> filename ∉ t.2) ->
  find_in_walk filename triples = PNone.
Proof.
  induction triples as [|[[d ds] fs] triples IH]; intros Hnot; [reflexivity |].
  simpl. rewrite find_in_dir_absent.
  - apply IH. intros t Ht. apply Hnot. apply elem_of_cons; now right.
  - apply (Hnot (d, ds, fs)). apply elem_of_cons; now left.
Qed.

Lemma find_in_walk_first (filename d : string) (ds fs1 fs2 : list string)
    (pre post : list (string * list string * list string)) :
  (forall t, t ∈ pre -> filename ∉ t.2) -> filename ∉ fs1 ->
  find_in_walk filename (pre ++ (d, ds, fs1 ++ filename :: fs2) :: post)
  = PStr (OsPath.join d filename).
Proof.
  intros Hpre Hfs1.
  induction pre as [|[[d' ds'] fs'] pre IH]; simpl.
  - now rewrite find_in_dir_first.
  - rewrite find_in_dir_absent.
    + apply IH. intros t Ht. apply Hpre. apply elem_of_cons; now right.
    + apply (Hpre (d', ds', fs')). apply elem_of_cons; now left.
Qed.



(** C4: a captured path that is absolute and exists is kept; otherwise
    the working directory joined with it is taken if that exists;
    otherwise the walk of the library directory gives the first file
    named like the last segment of the captured path, and no file path
    if there is none. *)
Theorem path_resolution_tiers (h : Host) (cfg : gmap string pyval)
    (raw : string) :
  (OsPath.isabs raw = true -> path_exists h raw = true ->
   resolve_path h cfg raw = Ok (PStr raw))
  /\ (forall cwd,
        OsPath.isabs raw && path_exists h raw = false ->
        host_cwd h = PStr cwd ->
        path_exists h (OsPath.join cwd raw) = true ->
        resolve_path h cfg raw = Ok (PStr (OsPath.join cwd raw)))
  /\ (forall cwd libdir pre d ds fs1 fs2 post,
        OsPath.isabs raw && path_exists h raw = false ->
        host_cwd h = PStr cwd ->
        path_exists h (OsPath.join cwd raw) = false ->
        cfg !! "libdir" = Some (PStr libdir) ->
        walk h (expanduser h libdir)
        = pre ++ (d, ds, fs1 ++ Str.last_segment "/" raw :: fs2) :: post ->
        (forall t, t ∈ pre -> Str.last_segment "/" raw ∉ t.2) ->
        Str.last_segment "/" raw ∉ fs1 ->
        resolve_path h cfg raw
        = Ok (PStr (OsPath.join d (Str.last_segment "/" raw))))
  /\ (forall cwd libdir,
        OsPath.isabs raw && path_exists h raw = false ->
        host_cwd h = PStr cwd ->
        path_exists h (OsPath.join cwd raw) = false ->
        cfg !! "libdir" = Some (PStr libdir) ->
        (forall t, t ∈ walk h (expanduser h libdir) ->
           Str.last_segment "/" raw ∉ t.2) ->
        resolve_path h cfg raw = Ok PNone).
Proof.
  repeat split.
  - intros Habs Hex. unfold resolve_path. now rewrite Habs, Hex.
  - intros cwd Hno Hcwd Hex. unfold resolve_path, join_cwd.
    rewrite Hno, Hcwd. cbn [as_str mbind result_bind mret result_ret].
    now rewrite Hex.
  - intros cwd libdir pre d ds fs1 fs2 post Hno Hcwd Hex Hlib Hwalk Hpre Hfs1.
    unfold resolve_path, join_cwd, search_filepath_in_libdir, getitem.
    rewrite Hno, Hcwd. cbn [as_str mbind result_bind mret result_ret].
    rewrite Hex, Hlib. cbn [negb as_str mbind result_bind mret result_ret].
    rewrite Hwalk.
    now rewrite find_in_walk_first.
  - intros cwd libdir Hno Hcwd Hex Hlib Hnone.
    unfold resolve_path, join_cwd, search_filepath_in_libdir, getitem.
    rewrite Hno, Hcwd. cbn [as_str mbind result_bind mret result_ret].
    rewrite Hex, Hlib. cbn [negb as_str mbind result_bind mret result_ret].
    now rewrite find_in_walk_absent.
Qed.

Lemma path_resolution_tiers_witness :
  resolve_path sample_host plain_config "/etc/app.conf"
  = Ok (PStr "/etc/app.conf")
  /\ resolve_path sample_host plain_config "src/foo.py"
     = Ok (PStr "/home/u/proj/src/foo.py")
  /\ resolve_path sample_host plain_config "pkg/util.py"
     = Ok (PStr "/lib/x/util.py")
  /\ resolve_path sample_host plain_config "pkg/missing.py" = Ok PNone.
Proof.
  split; [| split; [| split]].
  - apply (proj1 (path_resolution_tiers sample_host plain_config
                    "/etc/app.conf")); reflexivity.
  - apply (proj1 (proj2 (path_resolution_tiers sample_host plain_config
                           "src/foo.py")) "/home/u/proj"); reflexivity.
  - apply (proj1 (proj2 (proj2
             (path_resolution_tiers sample_host plain_config "pkg/util.py")))
             "/home/u/proj" "/lib" [("/lib", ["x"], ["a.py"])]
             "/lib/x" [] ["bar.py"] [] []); try reflexivity.
    + intros t Ht. apply list_elem_of_singleton in Ht as ->.
      cbn. intros Hin. apply list_elem_of_singleton in Hin. discriminate.
    + intros Hin. apply list_elem_of_singleton in Hin. discriminate.
  - apply (proj2 (proj2 (proj2
             (path_resolution_tiers sample_host plain_config "pkg/missing.py")))
             "/home/u/proj" "/lib"); try reflexivity.
    intros t Ht. cbn in Ht.
    repeat (apply elem_of_cons in Ht as [-> | Ht]);
      [| | now apply elem_of_nil in Ht]; cbn; intros Hin;
      repeat (apply elem_of_cons in Hin as [Hin | Hin]; [discriminate |]);
      now apply elem_of_nil in Hin.
Defined.

(** ** Plain references *)






Lemma substring_all (s : string) : String.substring 0 (String.length s) s = s.
Proof. induction s as [|a s IH]; simpl; [reflexivity | now rewrite IH]. Qed.

(** A captured [:N] under the role [line] or [column]. *)
Lemma assign_group_line (h : Host) (cfg : gmap string pyval)
    (fp ln col : pyval) (N : string) :
  N <> "" ->
  assign_group h cfg (fp, ln, col) (Some (":" +:+ N)) "line"
  = Ok (fp, PStr N, col).
Proof.
  intros HN. unfold assign_group.
  change (Str.startswith ":" (":" +:+ N)) with true. cbv iota.
  change (String.substring 1 (String.length (":" +:+ N) - 1) (":" +:+ N))
    with (String.substring 0 (String.length N - 0) N).
  rewrite Nat.sub_0_r, substring_all.
  change (String.eqb "line" "file") with false.
  change (String.eqb "line" "line") with true.
  apply String.eqb_neq in HN. now rewrite HN.
Qed.





(** ** Configuration *)

(** With nothing saved the flag is normalised to false ([to_bool] of
    the boolean default) and the plain pattern stays. *)
Lemma check_config_default :
  exists cfg,
    check_config None = Ok cfg
    /\ cfg !! "git_diff_support" = Some (PBool false)
    /\ cfg !! "match" = Some (PStr DEFAULT_REGEX).
Proof. eexists. repeat split; vm_compute; reflexivity. Qed.

(** C10: when the saved configuration has [git_diff_support] enabled
    (the string [True]), [check_config] raises nothing, stores the flag
    as true and stores the git diff pattern as [match], whatever pattern
    was saved. *)
Theorem check_config_overwrites_match (saved : gmap string pyval) :
  saved !! "git_diff_support" = Some (PStr "True") ->
  exists cfg,
    check_config (Some saved) = Ok cfg
    /\ cfg !! "git_diff_support" = Some (PBool true)
    /\ cfg !! "match" = Some (PStr GIT_DIFF_REGEX).
Proof.
  intros Hflag. unfold check_config, getitem.
  assert (exists v, (saved ∪ default_config) !! "open_in_current_term" = Some v)
    as [v Hv].
  { destruct (saved !! "open_in_current_term") as [v|] eqn:E.
    - exists v. now apply lookup_union_Some_l.
    - eexists. rewrite lookup_union_r by exact E. reflexivity. }
  rewrite Hv. cbn [mbind result_bind].
  rewrite lookup_insert_ne by discriminate.
  rewrite (lookup_union_Some_l _ _ _ _ Hflag).
  cbn [default id]. change (to_bool (PStr "True")) with true.
  rewrite lookup_insert_eq. cbn [mbind result_bind truthy mret result_ret].
  eexists. split; [reflexivity |]. split.
  - rewrite lookup_insert_ne by discriminate. apply lookup_insert_eq.
  - apply lookup_insert_eq.
Qed.

Lemma check_config_overwrites_match_witness :
  exists cfg,
    check_config (Some {[ "git_diff_support" := PStr "True";
                          "match" := PStr "[a-z]+\.py" ]}) = Ok cfg
    /\ cfg !! "git_diff_support" = Some (PBool true)
    /\ cfg !! "match" = Some (PStr GIT_DIFF_REGEX).
Proof.
  apply (check_config_overwrites_match
           {[ "git_diff_support" := PStr "True";
              "match" := PStr "[a-z]+\.py" ]}).
  reflexivity.
Defined.

(** ** More on the patterns *)

Lemma startswith_two (a b : ascii) (s : string) :
  Str.startswith (String a (String b "")) s = true ->
  exists s', s = String a (String b s').
Proof.
  destruct s as [|c [|c2 s']]; cbn [Str.startswith]; try discriminate.
  - rewrite andb_false_r. discriminate.
  - intros H. apply andb_true_iff in H as [H1 H2].
    apply andb_true_iff in H2 as [H2 _].
    apply Ascii.eqb_eq in H1, H2. subst. now exists s'.
Qed.

(** X1: a fragment that begins with [a/] or [b/] is matched from its
    start neither by the plain pattern nor by the git diff pattern. *)
Theorem diff_prefix_excluded (s : string) :
  Str.startswith "a/" s = true \/ Str.startswith "b/" s = true ->
  py_match (PStr DEFAULT_REGEX) s = Ok None
  /\ py_match (PStr GIT_DIFF_REGEX) s = Ok None.
Proof.
  intros H.
  unfold py_match, Re.re_match. cbn [as_str mbind result_bind].
  rewrite compile_default, compile_git_diff.
  destruct H as [H | H]; apply startswith_two in H as [s' ->];
    split; reflexivity.
Qed.

Lemma diff_prefix_excluded_witness :
  py_match (PStr DEFAULT_REGEX) "a/src/foo.py:12" = Ok None
  /\ py_match (PStr GIT_DIFF_REGEX) "a/src/foo.py:12" = Ok None.
Proof. apply (diff_prefix_excluded "a/src/foo.py:12"). left. reflexivity. Defined.

Lemma scan_next (r : Re.regex) (g : nat) (bef : string) (a : ascii) (s : string) :
  Re.attempt r g bef (String a s) = None ->
  Re.scan r g bef (String a s) = Re.scan r g (String a bef) s.
Proof. intros H. cbn [Re.scan]. now rewrite H. Qed.

(** After a character that is not a space the plain pattern cannot
    begin. *)
Lemma plain_needs_boundary (c : ascii) (bef s : string) :
  c <> " "%char -> Re.attempt Ast.plain 3 (String c bef) s = None.
Proof.
  intros Hc. unfold Re.attempt, Re.start_state, Ast.plain.
  rewrite exec_cat.
  rewrite (exec_alt_r _ _ _ _ None); [reflexivity | reflexivity |].
  cbn [Re.exec Re.width Re.rewind Re.before Re.after Re.caps].
  unfold Re.step. cbn [Re.after].
  destruct (Ascii.eqb_spec " " c) as [<-|_]; [congruence | reflexivity].
Qed.

Lemma plain_scan_inside (s : string) :
  forall (c : ascii) (bef : string),
    c <> " "%char -> Str.contains " " s = false ->
    Re.scan Ast.plain 3 (String c bef) s = None.
Proof.
  induction s as [|a s IH]; intros c bef Hc Hs.
  - cbn [Re.scan]. now rewrite plain_needs_boundary.
  - cbn [Str.contains] in Hs. apply orb_false_iff in Hs as [Ha Hs].
    rewrite scan_next by now apply plain_needs_boundary.
    apply IH; [| exact Hs]. intros ->. discriminate.
Qed.

(** X2: in a text without spaces the plain pattern is found only at
    the very start: searching gives what matching from the start
    gives. *)
Theorem plain_search_is_match (s : string) :
  Str.contains " " s = false ->
  py_search DEFAULT_REGEX s = py_match (PStr DEFAULT_REGEX) s.
Proof.
  intros Hs. unfold py_search, py_match, Re.re_search, Re.re_match.
  cbn [as_str mbind result_bind]. rewrite compile_default.
  do 2 f_equal.
  destruct s as [|a s]; cbn [Re.scan].
  - now destruct (Re.attempt Ast.plain 3 "" "").
  - destruct (Re.attempt Ast.plain 3 "" (String a s)); [reflexivity |].
    cbn [Str.contains] in Hs. apply orb_false_iff in Hs as [Ha Hs].
    apply plain_scan_inside; [| exact Hs]. intros ->. discriminate.
Qed.

Lemma plain_search_is_match_witness :
  py_search DEFAULT_REGEX "x=b/src/foo.py:12"
  = py_match (PStr DEFAULT_REGEX) "x=b/src/foo.py:12".
Proof. apply (plain_search_is_match "x=b/src/foo.py:12"). reflexivity. Defined.

Lemma exec_behind_found (r : Re.regex) (st st' : Re.mstate)
    (k : Re.mstate -> option Re.mstate) :
  match Re.width r with
  | Some w =>
      match Re.rewind w st with
      | Some st0 =>
          Re.exec r st0 (fun st1 =>
            if String.length (Re.after st1) =? String.length (Re.after st)
            then Some st1 else None)
      | None => None
      end
  | None => None
  end = Some st' ->
  Re.exec (Re.RBehind false r) st k
  = k (Re.MState (Re.before st) (Re.after st) (Re.caps st')).
Proof. intros H. cbn [Re.exec]. now rewrite H. Qed.

(** A greedy [+] over a character set fails when the continuation
    rejects every split of the run. *)
Lemma exec_plus_set_none (k : Re.mstate -> option Re.mstate)
    (neg : bool) (items : list Re.citem)
    (w bef rest : string) (cs : list (option string)) :
  Str.all (Re.in_set neg items) w = true ->
  stops (Re.in_set neg items) rest ->
  (forall u v, w = u +:+ v -> u <> "" ->
     k (Re.MState (Str.revapp u bef) (v +:+ rest) cs) = None) ->
  Re.exec (Re.RPlus (Re.RSet neg items)) (Re.MState bef (w +:+ rest) cs) k
  = None.
Proof.
  intros Hw Hstop Hnone.
  change (Re.step (Re.in_set neg items) (Re.MState bef (w +:+ rest) cs)
            (fun st' => Re.star_loop (Re.step (Re.in_set neg items)) k
                          (S (String.length (Re.after st'))) st') = None).
  unfold Re.step at 1, Re.advance. cbn [Re.after Re.before Re.caps].
  destruct w as [|a w].
  - cbn [String.append]. destruct rest as [|b rest]; [reflexivity |].
    cbn [stops] in Hstop. now rewrite Hstop.
  - cbn [Str.all] in Hw. apply andb_true_iff in Hw as [Ha Hw].
    cbn [String.append]. rewrite Ha.
    rewrite star_loop_run; [| exact Hw | exact Hstop | lia].
    rewrite try_splits_none.
    + apply (Hnone (String a "") w); [reflexivity | discriminate].
    + intros u v Huv Hu.
      apply (Hnone (String a u) v); [cbn; now rewrite Huv | discriminate].
Qed.

Lemma exec_behind_dead (r : Re.regex) (st : Re.mstate)
    (k : Re.mstate -> option Re.mstate) :
  (forall cs', k (Re.MState (Re.before st) (Re.after st) cs') = None) ->
  Re.exec (Re.RBehind false r) st k = None.
Proof.
  intros H. cbn [Re.exec].
  destruct (match Re.width r with Some _ => _ | None => _ end);
    [apply H | reflexivity].
Qed.

(** The boundary [(?:^|(?<= ))] consumes nothing. *)
Lemma exec_boundary_dead (bef s : string) (cs : list (option string))
    (k : Re.mstate -> option Re.mstate) :
  (forall cs', k (Re.MState bef s cs') = None) ->
  Re.exec (Re.RAlt Re.RBol (Re.RBehind false (Re.RChr " ")))
          (Re.MState bef s cs) k = None.
Proof.
  intros H. apply exec_alt_r.
  - cbn [Re.exec Re.before]. destruct bef; [apply H | reflexivity].
  - apply exec_behind_dead. exact H.
Qed.

Lemma exec_ahead_dead (neg : bool) (r : Re.regex) (st : Re.mstate)
    (k : Re.mstate -> option Re.mstate) :
  (forall cs', k (Re.MState (Re.before st) (Re.after st) cs') = None) ->
  Re.exec (Re.RAhead neg r) st k = None.
Proof.
  intros H. cbn [Re.exec].
  destruct (Re.exec r st Some) as [st'|], neg; try reflexivity; [apply H |].
  destruct st as [b a c]. apply H.
Qed.

(** At any position, the plain pattern rejects a text that goes on
    with [a/] or [b/]. *)
Lemma plain_rejects_diff_prefix (bef s : string) (cs : list (option string)) :
  Str.startswith "a/" s = true \/ Str.startswith "b/" s = true ->
  Re.exec Ast.plain (Re.MState bef s cs) Some = None.
Proof.
  intros H. unfold Ast.plain. rewrite exec_cat.
  apply exec_boundary_dead. intros cs'.
  destruct H as [H | H]; apply startswith_two in H as [s' ->]; reflexivity.
Qed.

Lemma contains_append (c : ascii) (u v : string) :
  Str.contains c (u +:+ v) = Str.contains c u || Str.contains c v.
Proof.
  induction u as [|a u IH]; cbn [String.append Str.contains]; [reflexivity |].
  now rewrite IH, orb_assoc.
Qed.

(** At any position, the plain pattern rejects a run of path
    characters that holds no dot. *)
Lemma plain_needs_dot (bef w rest : string) (cs : list (option string)) :
  Str.all is_path_char w = true -> Str.contains "." w = false ->
  stops is_path_char rest ->
  Re.exec Ast.plain (Re.MState bef (w +:+ rest) cs) Some = None.
Proof.
  intros Hw Hdot Hstop. unfold Ast.plain. rewrite exec_cat.
  apply exec_boundary_dead. intros cs1. rewrite exec_cat.
  apply exec_ahead_dead. intros cs2. cbn [Re.before Re.after].
  rewrite exec_cat, exec_group, exec_cat.
  apply exec_plus_set_none; [exact Hw | exact Hstop |].
  intros u v Huv Hu. rewrite exec_cat.
  destruct v as [|b v]; cbn [String.append].
  - destruct rest as [|b rest]; [reflexivity |].
    apply exec_chr_mismatch. intros ->. cbn [stops] in Hstop. discriminate.
  - apply exec_chr_mismatch. intros ->.
    rewrite Huv, contains_append in Hdot.
    apply orb_false_iff in Hdot as [_ Hdot].
    cbn [Str.contains] in Hdot. discriminate.
Qed.

(** No alternative of the git diff pattern begins here. *)
Lemma git_diff_attempt_none (bef s : string) :
  Re.exec (Ast.header "--- a/") (Re.start_state bef s 3) Some = None ->
  Re.exec (Ast.header "+++ b/") (Re.start_state bef s 3) Some = None ->
  Re.exec (Ast.header "diff --git a/") (Re.start_state bef s 3) Some = None ->
  Re.exec Ast.hunk_token (Re.start_state bef s 3) Some = None ->
  Re.exec Ast.plain (Re.start_state bef s 3) Some = None ->
  Re.attempt Ast.git_diff 3 bef s = None.
Proof.
  intros H1 H2 H3 H4 H5. unfold Re.attempt.
  change Ast.git_diff
    with (Re.RAlt (Ast.header "--- a/")
            (Re.RAlt (Ast.header "+++ b/")
               (Re.RAlt (Ast.header "diff --git a/")
                  (Re.RAlt Ast.hunk_token Ast.plain)))).
  now rewrite (exec_alt_r _ _ _ _ None H1
                 (exec_alt_r _ _ _ _ None H2
                    (exec_alt_r _ _ _ _ None H3
                       (exec_alt_r _ _ _ _ None H4 H5)))).
Qed.

Lemma plain_needs_boundary_exec (c : ascii) (bef s : string)
    (cs : list (option string)) :
  c <> " "%char -> Re.exec Ast.plain (Re.MState (String c bef) s cs) Some = None.
Proof.
  intros Hc. unfold Ast.plain.
  rewrite exec_cat.
  rewrite (exec_alt_r _ _ _ _ None); [reflexivity | reflexivity |].
  cbn [Re.exec Re.width Re.rewind Re.before Re.after Re.caps].
  unfold Re.step. cbn [Re.after].
  destruct (Ascii.eqb_spec " " c) as [<-|_]; [congruence | reflexivity].
Qed.

(** One step of the search over a position where nothing begins. *)
Ltac skip_position :=
  rewrite scan_next;
  [| apply git_diff_attempt_none;
     [ reflexivity | reflexivity | reflexivity | reflexivity
     | first
         [ apply plain_needs_boundary_exec; discriminate
         | apply plain_rejects_diff_prefix; left; reflexivity
         | apply plain_rejects_diff_prefix; right; reflexivity
         | reflexivity ] ] ].

(** The run of non-blank characters after a look-behind that holds. *)
Ltac header_run Hne Hall Hstop :=
  rewrite exec_cat;
  match goal with
  | |- Re.exec (Re.RBehind false ?r) ?st ?k = _ =>
      rewrite (exec_behind_found r st st k)
  end;
  [ cbv beta; cbn [Re.before Re.after Re.caps];
    match goal with
    | |- Re.exec _ (Re.MState _ (?path +:+ ?rest) _) _ = _ =>
        apply (exec_plus_set _ true _ path "" _ rest);
        [ exact Hne | exact Hall | reflexivity | exact Hstop
        | intros u v Huv Hu; destruct (empty_split _ _ Huv Hu)
        | reflexivity ]
    end
  | cbn [Re.width Re.rewind Re.before Re.after Re.caps Nat.add];
    repeat re_chr; rewrite exec_chr; cbn [Re.after];
    rewrite Nat.eqb_refl; reflexivity ].

Lemma header_fragment_minus (path rest : string) :
  path <> "" -> Str.all is_nonspace_char path = true ->
  stops is_nonspace_char rest ->
  Re.re_search GIT_DIFF_REGEX ("--- a/" +:+ path +:+ rest)
  = Some (Some (Re.RMatch path [None; None; None])).
Proof.
  intros Hne Hall Hstop.
  unfold Re.re_search. rewrite compile_git_diff. f_equal.
  simpl String.append.
  rewrite scan_next.
  2: { apply git_diff_attempt_none; try reflexivity.
       apply (plain_needs_dot "" "---" (" a/" +:+ path +:+ rest));
         reflexivity. }
  do 5 skip_position.
  apply scan_here. unfold Re.attempt, Re.start_state.
  assert (exists bef',
    Re.exec Ast.git_diff (Re.MState "/a ---" (path +:+ rest) (replicate 3 None)) Some
    = Some (Re.MState bef' rest [None; None; None])) as [bef' E].
  { eexists. unfold Ast.git_diff.
    apply exec_alt_l. header_run Hne Hall Hstop. }
  rewrite E. do 2 f_equal. now apply consumed_eq.
Qed.

Lemma header_fragment_plus (path rest : string) :
  path <> "" -> Str.all is_nonspace_char path = true ->
  stops is_nonspace_char rest ->
  Re.re_search GIT_DIFF_REGEX ("+++ b/" +:+ path +:+ rest)
  = Some (Some (Re.RMatch path [None; None; None])).
Proof.
  intros Hne Hall Hstop.
  unfold Re.re_search. rewrite compile_git_diff. f_equal.
  simpl String.append.
  do 6 skip_position.
  apply scan_here. unfold Re.attempt, Re.start_state.
  assert (exists bef',
    Re.exec Ast.git_diff (Re.MState "/b +++" (path +:+ rest) (replicate 3 None)) Some
    = Some (Re.MState bef' rest [None; None; None])) as [bef' E].
  { eexists. unfold Ast.git_diff.
    apply exec_alt_r; [reflexivity |].
    apply exec_alt_l. header_run Hne Hall Hstop. }
  rewrite E. do 2 f_equal. now apply consumed_eq.
Qed.

Lemma header_fragment_diff (path rest : string) :
  path <> "" -> Str.all is_nonspace_char path = true ->
  stops is_nonspace_char rest ->
  Re.re_search GIT_DIFF_REGEX ("diff --git a/" +:+ path +:+ rest)
  = Some (Some (Re.RMatch path [None; None; None])).
Proof.
  intros Hne Hall Hstop.
  unfold Re.re_search. rewrite compile_git_diff. f_equal.
  simpl String.append.
  rewrite scan_next.
  2: { apply git_diff_attempt_none; try reflexivity.
       apply (plain_needs_dot "" "diff" (" --git a/" +:+ path +:+ rest));
         reflexivity. }
  do 4 skip_position.
  rewrite scan_next.
  2: { apply git_diff_attempt_none; try reflexivity.
       apply (plain_needs_dot _ "--git" (" a/" +:+ path +:+ rest));
         reflexivity. }
  do 7 skip_position.
  apply scan_here. unfold Re.attempt, Re.start_state.
  assert (exists bef',
    Re.exec Ast.git_diff
      (Re.MState "/a tig-- ffid" (path +:+ rest) (replicate 3 None)) Some
    = Some (Re.MState bef' rest [None; None; None])) as [bef' E].
  { eexists. unfold Ast.git_diff.
    do 2 (apply exec_alt_r; [reflexivity |]).
    apply exec_alt_l. header_run Hne Hall Hstop. }
  rewrite E. do 2 f_equal. now apply consumed_eq.
Qed.

Lemma fragment_of_header_line (path rest : string) :
  path <> "" -> Str.all is_nonspace_char path = true ->
  stops is_nonspace_char rest ->
  fragment_of_line GIT_DIFF_REGEX ("--- a/" +:+ path +:+ rest) = Ok (Some path)
  /\ fragment_of_line GIT_DIFF_REGEX ("+++ b/" +:+ path +:+ rest) = Ok (Some path)
  /\ fragment_of_line GIT_DIFF_REGEX ("diff --git a/" +:+ path +:+ rest)
     = Ok (Some path).
Proof.
  intros Hne Hall Hstop. unfold fragment_of_line, py_search.
  rewrite header_fragment_minus, header_fragment_plus, header_fragment_diff
    by assumption.
  repeat split.
Qed.



Lemma git_diff_search_hunk_token (body rest : string) :
  body <> "" -> Str.contains "@" body = false ->
  Re.re_search GIT_DIFF_REGEX ("@@ " +:+ body +:+ " @@" +:+ rest)
  = Some (Some (Re.RMatch ("@@ " +:+ body +:+ " @@") [None; None; None])).
Proof.
  intros Hne Hat. unfold Re.re_search. rewrite compile_git_diff. f_equal.
  apply scan_here. unfold Re.attempt, Re.start_state.
  assert (exists bef',
    Re.exec Ast.git_diff
      (Re.MState "" ("@@ " +:+ body +:+ " @@" +:+ rest) (replicate 3 None)) Some
    = Some (Re.MState bef' rest [None; None; None])) as [bef' E].
  { eexists. unfold Ast.git_diff.
    do 3 (apply exec_alt_r; [reflexivity |]).
    apply exec_alt_l.
    change ("@@ " +:+ body +:+ " @@" +:+ rest)
      with (String "@" (String "@" (String " " (body +:+ " " +:+ "@@" +:+ rest)))).
    do 3 re_chr. rewrite exec_cat.
    apply exec_plus_set;
      [ exact Hne | now apply all_not_contains | reflexivity | reflexivity | | ].
    - intros u v Huv Hu.
      destruct u as [|a [|b u]]; [congruence | | discriminate].
      destruct v; [| discriminate]. reflexivity.
    - cbv beta.
      change (" " +:+ "@@" +:+ rest) with (String " " (String "@" (String "@" rest))).
      do 2 re_chr. rewrite exec_chr. reflexivity. }
  rewrite E. do 2 f_equal. apply consumed_eq.
  cbn [Re.after]. now rewrite !append_assoc.
Qed.

Lemma fragment_of_hunk_line (body rest : string) :
  body <> "" -> Str.contains "@" body = false ->
  fragment_of_line GIT_DIFF_REGEX ("@@ " +:+ body +:+ " @@" +:+ rest)
  = Ok (Some ("@@ " +:+ body +:+ " @@")).
Proof.
  intros Hne Hat. unfold fragment_of_line, py_search.
  now rewrite git_diff_search_hunk_token.
Qed.

(** X4: on a line that begins with a hunk token [@@ body @@] the
    fragment the git diff pattern yields is that token, without what
    follows it on the line. *)
Theorem hunk_line_fragment (body rest : string) :
  body <> "" -> Str.contains "@" body = false ->
  fragment_of_line GIT_DIFF_REGEX ("@@ " +:+ body +:+ " @@" +:+ rest)
  = Ok (Some ("@@ " +:+ body +:+ " @@")).
Proof. apply fragment_of_hunk_line. Qed.

Lemma hunk_line_fragment_witness :
  fragment_of_line GIT_DIFF_REGEX "@@ -71,7 +72,9 @@ def callback(self):"
  = Ok (Some "@@ -71,7 +72,9 @@").
Proof.
  apply (hunk_line_fragment "-71,7 +72,9" " def callback(self):");
    [discriminate | reflexivity].
Defined.

Lemma all_not_contains_gen (p : ascii -> bool) (c : ascii) (s : string) :
  p c = false -> Str.all p s = true -> Str.contains c s = false.
Proof.
  intros Hc. induction s as [|a s IH]; cbn [Str.all Str.contains]; [reflexivity |].
  intros H. apply andb_true_iff in H as [Ha Hs]. rewrite (IH Hs), orb_false_r.
  destruct (Ascii.eqb_spec a c) as [->|_]; [congruence | reflexivity].
Qed.

Lemma re_search_hunk_some (s : string) (m : Re.rmatch) :
  Re.re_search HUNK_REGEX s = Some (Some m) -> Re.scan Ast.hunk 1 "" s = Some m.
Proof. unfold Re.re_search. rewrite compile_hunk. now intros [= ->]. Qed.

(** X5: for every path of a tracked shape and every hunk header
    [@@ -a,b +c,d @@], the two file header lines and the hunk line
    yield the path, the path and the header as fragments, and resolving
    them in order gives the joined path with line 1 twice, then the
    joined path with line [c]; the tracker ends on the path and [c]. *)
Theorem diff_hunk_resolves (h : Host) (cfg : gmap string pyval)
    (cwd path a b c d : string) (ctx : DiffContext) :
  git_diff_enabled cfg = true ->
  host_cwd h = PStr cwd ->
  path <> "" -> Str.all is_nonspace_char path = true ->
  file_shaped path = true ->
  a <> "" -> Str.all is_digit_char a = true ->
  Str.all is_digit_char b = true ->
  c <> "" -> Str.all is_digit_char c = true ->
  Str.all is_digit_char d = true ->
  fragment_of_line GIT_DIFF_REGEX ("--- a/" +:+ path) = Ok (Some path)
  /\ fragment_of_line GIT_DIFF_REGEX ("+++ b/" +:+ path) = Ok (Some path)
  /\ fragment_of_line GIT_DIFF_REGEX
       ("@@ -" +:+ a +:+ "," +:+ b +:+ " +" +:+ c +:+ "," +:+ d +:+ " @@")
     = Ok (Some ("@@ -" +:+ a +:+ "," +:+ b +:+ " +" +:+ c +:+ "," +:+ d +:+ " @@"))
  /\ resolve_each h cfg
       [path; path;
        "@@ -" +:+ a +:+ "," +:+ b +:+ " +" +:+ c +:+ "," +:+ d +:+ " @@"] ctx
     = ([Ok (PStr (OsPath.join cwd path), PStr "1", PStr "1");
         Ok (PStr (OsPath.join cwd path), PStr "1", PStr "1");
         Ok (PStr (OsPath.join cwd path), PStr c, PStr "1")],
        {| ctx_file := PStr path; ctx_line := PStr c |}).
Proof.
  intros Hen Hcwd Hne Hall Hfs Ha Hac Hbc Hc Hcc Hdc.
  destruct (fragment_of_header_line path "" Hne Hall I) as (F1 & F2 & _).
  rewrite append_empty_r in F1, F2.
  repeat split; [exact F1 | exact F2 | |].
  - assert ("@@ " +:+ ("-" +:+ a +:+ "," +:+ b +:+ " +" +:+ c +:+ "," +:+ d)
            +:+ " @@"
            = "@@ -" +:+ a +:+ "," +:+ b +:+ " +" +:+ c +:+ "," +:+ d +:+ " @@")
      as E.
    { repeat first [rewrite append_assoc | progress cbn [String.append]].
      reflexivity. }
    rewrite <- E.
    rewrite <- (append_empty_r " @@") at 1.
    apply fragment_of_hunk_line; [discriminate |].
    change (Str.contains "@" (a +:+ "," +:+ b +:+ " +" +:+ c +:+ "," +:+ d) = false).
    assert (forall x, Str.all is_digit_char x = true -> Str.contains "@" x = false)
      as Hd by (intros x; now apply all_not_contains_gen).
    rewrite !contains_append, (Hd a), (Hd b), (Hd c), (Hd d) by assumption.
    reflexivity.
  - cbn [resolve_each].
    rewrite !(get_filepath_file_header h cfg path _ Hen Hfs).
    pose proof (hunk_search_number true a b c ("," +:+ d +:+ " @@")
                  Ha Hac Hbc ltac:(discriminate) Hc Hcc eq_refl) as Hm.
    apply re_search_hunk_some in Hm.
    rewrite (get_filepath_hunk_known h cfg _
               {| ctx_file := PStr path; ctx_line := PNone |} _ Hen
               (eq_refl : Str.startswith "@@" ("@@ -" +:+ _) = true) Hm).
    2: { cbn [truthy ctx_file]. apply String.eqb_neq in Hne. now rewrite Hne. }
    unfold join_cwd. rewrite Hcwd. reflexivity.
Qed.

Lemma diff_hunk_resolves_witness :
  resolve_each sample_host git_config
    ["src/app.py"; "src/app.py"; "@@ -71,7 +72,9 @@"] initial_context
  = ([Ok (PStr "/home/u/proj/src/app.py", PStr "1", PStr "1");
      Ok (PStr "/home/u/proj/src/app.py", PStr "1", PStr "1");
      Ok (PStr "/home/u/proj/src/app.py", PStr "72", PStr "1")],
     {| ctx_file := PStr "src/app.py"; ctx_line := PStr "72" |}).
Proof.
  apply (diff_hunk_resolves sample_host git_config "/home/u/proj" "src/app.py"
           "71" "7" "72" "9" initial_context);
    (reflexivity || discriminate).
Defined.

(** ** More on the tracker and the resolver *)

Lemma get_filepath_tracker_eq (h : Host) (cfg : gmap string pyval)
    (s : string) (ctx : DiffContext) :
  (get_filepath h cfg s ctx).2
  = if git_diff_enabled cfg then (update_git_diff_context s ctx).2 else ctx.
Proof.
  unfold get_filepath. destruct (git_diff_enabled cfg); [| reflexivity].
  unfold mbind, M_bind.
  destruct (update_git_diff_context s ctx) as [[[]|e] ctx1]; [| reflexivity].
  unfold lift, get_context, mret, M_ret. cbn [snd].
  repeat match goal with
         | |- context [match ?x with _ => _ end] => destruct x
         end; reflexivity.
Qed.

(** X6: whatever the outcome, a resolution leaves the tracker as the
    tracker update alone leaves it, and untouched when git diff support
    is off. *)
Theorem get_filepath_tracker (h : Host) (cfg : gmap string pyval)
    (s : string) (ctx : DiffContext) :
  (get_filepath h cfg s ctx).2
  = if git_diff_enabled cfg then (update_git_diff_context s ctx).2 else ctx.
Proof. apply get_filepath_tracker_eq. Qed.

Lemma update_keeps_file (s : string) (ctx : DiffContext) :
  file_shaped s = false ->
  ctx_file (update_git_diff_context s ctx).2 = ctx_file ctx.
Proof.
  intros Hfs. unfold update_git_diff_context.
  rewrite Hfs, py_search_hunk. unfold mbind, M_bind, lift.
  now destruct (Re.scan Ast.hunk 1 "" s).
Qed.

Lemma get_filepath_keeps_file (h : Host) (cfg : gmap string pyval)
    (s : string) (ctx : DiffContext) :
  file_shaped s = false ->
  ctx_file (get_filepath h cfg s ctx).2 = ctx_file ctx.
Proof.
  intros Hfs. rewrite get_filepath_tracker_eq.
  destruct (git_diff_enabled cfg); [now apply update_keeps_file | reflexivity].
Qed.

Lemma resolve_each_keeps_file (h : Host) (cfg : gmap string pyval)
    (fragments : list string) :
  forall ctx,
    Forall (fun s => file_shaped s = false) fragments ->
    ctx_file (resolve_each h cfg fragments ctx).2 = ctx_file ctx.
Proof.
  induction fragments as [|s rest IH]; intros ctx Hall; [reflexivity |].
  inversion Hall as [|? ? Hs Hrest]; subst.
  cbn [resolve_each].
  destruct (get_filepath h cfg s ctx) as [r ctx1] eqn:E.
  specialize (IH ctx1 Hrest).
  destruct (resolve_each h cfg rest ctx1) as [rs ctx2]. cbn [snd] in *.
  rewrite IH. pose proof (get_filepath_keeps_file h cfg s ctx Hs) as K.
  now rewrite E in K.
Qed.

Lemma resolve_each_app (h : Host) (cfg : gmap string pyval)
    (xs ys : list string) :
  forall ctx,
    resolve_each h cfg (xs ++ ys) ctx
    = ((resolve_each h cfg xs ctx).1
       ++ (resolve_each h cfg ys (resolve_each h cfg xs ctx).2).1,
       (resolve_each h cfg ys (resolve_each h cfg xs ctx).2).2).
Proof.
  induction xs as [|x xs IH]; intros ctx.
  - cbn. now destruct (resolve_each h cfg ys ctx).
  - cbn [app resolve_each].
    destruct (get_filepath h cfg x ctx) as [r ctx1].
    rewrite IH.
    destruct (resolve_each h cfg xs ctx1) as [rs ctx2]. cbn [fst snd].
    now destruct (resolve_each h cfg ys ctx2).
Qed.

Lemma file_shaped_truthy (s : string) :
  file_shaped s = true -> truthy (PStr s) = true.
Proof. destruct s; [discriminate | reflexivity]. Qed.

(** X7: a hunk header is resolved against the last file-shaped
    fragment seen, however many fragments of another shape were
    resolved in between: the tracked file is never reset. *)
Theorem hunk_uses_last_tracked_file (h : Host) (cfg : gmap string pyval)
    (cwd file hunk : string) (others : list string) (m : Re.rmatch)
    (ctx : DiffContext) :
  git_diff_enabled cfg = true ->
  host_cwd h = PStr cwd ->
  file_shaped file = true ->
  Forall (fun s => file_shaped s = false) others ->
  Str.startswith "@@" hunk = true ->
  Re.re_search HUNK_REGEX hunk = Some (Some m) ->
  last (resolve_each h cfg (file :: others ++ [hunk]) ctx).1
  = Some (Ok (PStr (OsPath.join cwd file), py_of_option (Re.group m 1), PStr "1")).
Proof.
  intros Hen Hcwd Hfs Hothers Hs Hm.
  change (file :: others ++ [hunk]) with ((file :: others) ++ [hunk]).
  rewrite resolve_each_app. cbn [fst]. rewrite last_app.
  assert (ctx_file (resolve_each h cfg (file :: others) ctx).2 = PStr file) as Hf.
  { cbn [resolve_each].
    rewrite (get_filepath_file_header h cfg file ctx Hen Hfs).
    pose proof (resolve_each_keeps_file h cfg others
                  {| ctx_file := PStr file; ctx_line := PNone |} Hothers) as K.
    destruct (resolve_each h cfg others _) as [rs ctx2]. exact K. }
  set (ctx2 := (resolve_each h cfg (file :: others) ctx).2) in *.
  cbn [resolve_each].
  rewrite (get_filepath_hunk_known h cfg hunk ctx2 m Hen Hs
             (re_search_hunk_some _ _ Hm));
    [| rewrite Hf; now apply file_shaped_truthy].
  rewrite Hf. unfold join_cwd. rewrite Hcwd. reflexivity.
Qed.

Lemma hunk_uses_last_tracked_file_witness :
  last (resolve_each sample_host git_config
          ["src/app.py"; "Makefile"; "@@ -3 +4 @@"; "@@ -71,7 +72,9 @@"]
          initial_context).1
  = Some (Ok (PStr "/home/u/proj/src/app.py", PStr "72", PStr "1")).
Proof.
  apply (hunk_uses_last_tracked_file sample_host git_config "/home/u/proj"
           "src/app.py" "@@ -71,7 +72,9 @@" ["Makefile"; "@@ -3 +4 @@"]
           (Re.RMatch "@@ -71,7 +72" [Some "72"]) initial_context);
    try reflexivity.
  repeat constructor.
Defined.



Lemma bare_name_no_match (w : string) :
  Str.all is_path_char w = true -> Str.contains "." w = false ->
  Re.re_match DEFAULT_REGEX w = Some None
  /\ Re.re_match GIT_DIFF_REGEX w = Some None.
Proof.
  intros Hw Hdot. unfold Re.re_match.
  rewrite compile_default, compile_git_diff.
  pose proof (plain_needs_dot "" w "" (replicate 3 None) Hw Hdot I) as Hp.
  rewrite append_empty_r in Hp.
  split; f_equal.
  - unfold Re.attempt, Re.start_state. now rewrite Hp.
  - apply git_diff_attempt_none; try reflexivity; [| exact Hp].
    unfold Ast.hunk_token, Re.start_state.
    destruct w as [|c w]; [reflexivity |].
    cbn [Ast.seq Ast.chars app foldr]. rewrite exec_cat.
    apply exec_chr_mismatch. intros ->. discriminate.
Qed.



(** X9: a hunk token in which no line number is found resolves to the
    empty reference even when the tracker knows a file, and leaves the
    tracker as it was. *)
Theorem malformed_hunk_header (h : Host) (cfg : gmap string pyval)
    (body names : string) (ctx : DiffContext) :
  git_diff_enabled cfg = true ->
  cfg !! "match" = Some (PStr GIT_DIFF_REGEX) ->
  cfg !! "groups" = Some (PStr names) ->
  body <> "" -> Str.contains "@" body = false ->
  Re.re_search HUNK_REGEX ("@@ " +:+ body +:+ " @@") = Some None ->
  get_filepath h cfg ("@@ " +:+ body +:+ " @@") ctx = (Ok empty_reference, ctx).
Proof.
  intros Hen Hp Hg Hne Hat Hm.
  pose proof (get_filepath_tracker_eq h cfg ("@@ " +:+ body +:+ " @@") ctx) as T.
  rewrite Hen in T.
  destruct (get_filepath_fallback h cfg ("@@ " +:+ body +:+ " @@") ctx Hen)
    as (ctx1 & _ & E);
    [now apply startswith_not_file_shaped
    | intros _; left; now apply re_search_hunk_none |].
  rewrite E in T |- *. cbn [snd] in T. f_equal.
  - unfold plain_reference, getitem, py_match. rewrite Hp, Hg.
    cbn [mbind result_bind as_str].
    rewrite git_diff_matches_hunk_token by assumption.
    cbn [mret result_ret Re.groups]. apply assign_groups_unset.
    repeat constructor.
  - rewrite T. unfold update_git_diff_context, py_search.
    rewrite startswith_not_file_shaped by reflexivity. now rewrite Hm.
Qed.

Lemma malformed_hunk_header_witness :
  get_filepath sample_host git_config "@@ broken @@"
    {| ctx_file := PStr "src/app.py"; ctx_line := PStr "7" |}
  = (Ok empty_reference, {| ctx_file := PStr "src/app.py"; ctx_line := PStr "7" |}).
Proof.
  apply (malformed_hunk_header sample_host git_config "broken" DEFAULT_GROUPS);
    (reflexivity || discriminate).
Defined.

(** X10: with no terminal on the stack (no working directory), and git
    diff support on, a file-shaped fragment and a hunk header with a
    known file both raise [TypeError]; the tracker has been updated
    by then. *)
Theorem no_terminal_raises (h : Host) (cfg : gmap string pyval)
    (s : string) (ctx : DiffContext) :
  git_diff_enabled cfg = true ->
  host_cwd h = PNone ->
  (file_shaped s = true ->
   get_filepath h cfg s ctx
   = (Raise TypeError, {| ctx_file := PStr s; ctx_line := PNone |}))
  /\ (forall m file,
        Str.startswith "@@" s = true ->
        Re.re_search HUNK_REGEX s = Some (Some m) ->
        ctx_file ctx = PStr file -> file <> "" ->
        get_filepath h cfg s ctx
        = (Raise TypeError,
           {| ctx_file := PStr file; ctx_line := py_of_option (Re.group m 1) |})).
Proof.
  intros Hen Hcwd. split.
  - intros Hfs. rewrite get_filepath_file_header by assumption.
    unfold join_cwd. now rewrite Hcwd.
  - intros m file Hs Hm Hf Hne.
    rewrite (get_filepath_hunk_known h cfg s ctx m Hen Hs
               (re_search_hunk_some _ _ Hm)).
    + rewrite Hf. unfold join_cwd. now rewrite Hcwd.
    + rewrite Hf. cbn [truthy]. apply String.eqb_neq in Hne. now rewrite Hne.
Qed.

Lemma no_terminal_raises_witness :
  get_filepath
    {| host_cwd := PNone; path_exists := fun _ => false;
       expanduser := fun p => p; walk := fun _ => [] |}
    git_config "src/app.py" initial_context
  = (Raise TypeError, {| ctx_file := PStr "src/app.py"; ctx_line := PNone |}).
Proof.
  apply (no_terminal_raises
           {| host_cwd := PNone; path_exists := fun _ => false;
              expanduser := fun p => p; walk := fun _ => [] |}
           git_config "src/app.py" initial_context); reflexivity.
Defined.

(** ** More on plain references *)

Lemma default_matches_file (name ext : string) :
  name <> "" -> Str.all is_path_char name = true ->
  ext <> "" -> Str.all is_alnum_char ext = true ->
  Str.startswith "a/" (name +:+ "." +:+ ext) = false ->
  Str.startswith "b/" (name +:+ "." +:+ ext) = false ->
  Re.re_match DEFAULT_REGEX (name +:+ "." +:+ ext)
  = Some (Some (Re.RMatch (name +:+ "." +:+ ext)
                          [Some (name +:+ "." +:+ ext); None; None])).
Proof.
  intros Hname Hnamec Hext Hextc Ha Hb.
  unfold Re.re_match. rewrite compile_default.
  unfold Re.attempt, Re.start_state.
  assert (Str.startswith "a/" (name +:+ "." +:+ ext +:+ "") = false
          /\ Str.startswith "b/" (name +:+ "." +:+ ext +:+ "") = false)
    as [Ha' Hb'] by now rewrite append_empty_r.
  assert (exists bef',
    Re.exec Ast.plain
      (Re.MState "" (name +:+ "." +:+ ext +:+ "") (replicate 3 None)) Some
    = Some (Re.MState bef' "" [Some (name +:+ "." +:+ ext); None; None]))
    as [bef' E].
  { eexists. unfold Ast.plain.
    rewrite exec_cat. apply exec_alt_l. rewrite exec_bol. cbv beta.
    rewrite exec_cat, exec_not_ab_slash by assumption. cbv beta.
    rewrite exec_cat, exec_group, exec_cat.
    apply (exec_plus_set _ false _ name (String "." ext) "" "");
      [ exact Hname | exact Hnamec | | reflexivity | | ].
    - simpl. apply (all_impl _ _ _ alnum_is_path_char Hextc).
    - intros u v Huv Hu.
      destruct u as [|c u]; [congruence |]. simpl in Huv.
      injection Huv as <- Hext'.
      assert (Str.all is_alnum_char v = true) as Hv.
      { rewrite Hext', all_append in Hextc.
        now apply andb_true_iff in Hextc as [_ ?]. }
      rewrite exec_cat.
      destruct v as [|b v]; simpl String.append; [reflexivity |].
      apply exec_chr_mismatch. intros ->. simpl in Hv. discriminate.
    - cbv beta. simpl String.append. re_chr.
      apply (exec_plus_set _ false _ ext "" _ "");
        [ exact Hext | exact Hextc | reflexivity | reflexivity | | ].
      { intros u v Huv Hu. destruct (empty_split _ _ Huv Hu). }
      cbv beta. cbn [Re.before Re.after Re.caps]. simpl String.append.
      simpl Re.exec. simpl replicate.
      do 2 f_equal.
      rewrite (consumed_eq _ _ (name +:+ "." +:+ ext))
        by (simpl; rewrite !append_assoc, !append_empty_r; reflexivity).
      reflexivity. }
  rewrite append_empty_r in E. rewrite E. now rewrite consumed_all.
Qed.

Lemma default_matches_file_line (name ext N : string) :
  name <> "" -> Str.all is_path_char name = true ->
  ext <> "" -> Str.all is_alnum_char ext = true ->
  N <> "" -> Str.all is_num_char N = true ->
  Str.startswith "a/" (name +:+ "." +:+ ext) = false ->
  Str.startswith "b/" (name +:+ "." +:+ ext) = false ->
  Re.re_match DEFAULT_REGEX (name +:+ "." +:+ ext +:+ ":" +:+ N)
  = Some (Some (Re.RMatch (name +:+ "." +:+ ext +:+ ":" +:+ N)
                          [Some (name +:+ "." +:+ ext); Some (":" +:+ N); None])).
Proof.
  intros Hname Hnamec Hext Hextc HN HNc Ha Hb.
  unfold Re.re_match. rewrite compile_default.
  unfold Re.attempt, Re.start_state.
  assert (Str.startswith "a/" (name +:+ "." +:+ ext +:+ ":" +:+ N +:+ "") = false
          /\ Str.startswith "b/" (name +:+ "." +:+ ext +:+ ":" +:+ N +:+ "") = false)
    as [Ha' Hb'].
  { destruct name as [|c [|c2 name]]; [congruence | |]; simpl in *; auto. }
  assert (exists bef',
    Re.exec Ast.plain
      (Re.MState "" (name +:+ "." +:+ ext +:+ ":" +:+ N +:+ "")
                 (replicate 3 None)) Some
    = Some (Re.MState bef' ""
              [Some (name +:+ "." +:+ ext); Some (":" +:+ N); None]))
    as [bef' E].
  { eexists. unfold Ast.plain.
    rewrite exec_cat. apply exec_alt_l. rewrite exec_bol. cbv beta.
    rewrite exec_cat, exec_not_ab_slash by assumption. cbv beta.
    rewrite exec_cat, exec_group, exec_cat.
    apply (exec_plus_set _ false _ name (String "." ext) "" (":" +:+ N +:+ ""));
      [ exact Hname | exact Hnamec | | reflexivity | | ].
    - simpl. apply (all_impl _ _ _ alnum_is_path_char Hextc).
    - intros u v Huv Hu.
      destruct u as [|c u]; [congruence |]. simpl in Huv.
      injection Huv as <- Hext'.
      assert (Str.all is_alnum_char v = true) as Hv.
      { rewrite Hext', all_append in Hextc.
        now apply andb_true_iff in Hextc as [_ ?]. }
      rewrite exec_cat.
      destruct v as [|b v]; simpl String.append.
      + now apply exec_chr_mismatch.
      + apply exec_chr_mismatch. intros ->. simpl in Hv. discriminate.
    - cbv beta. simpl String.append. re_chr.
      apply (exec_plus_set _ false _ ext "" _ (":" +:+ N +:+ ""));
        [ exact Hext | exact Hextc | reflexivity | reflexivity | | ].
      { intros u v Huv Hu. destruct (empty_split _ _ Huv Hu). }
      cbv beta. cbn [Re.before Re.after Re.caps]. simpl String.append.
      rewrite exec_cat. apply exec_opt_take. rewrite exec_group. re_chr.
      apply (exec_plus_set _ false _ N "" _ "");
        [ exact HN | exact HNc | reflexivity | reflexivity | | ].
      { intros u v Huv Hu. destruct (empty_split _ _ Huv Hu). }
      cbv beta. cbn [Re.before Re.after Re.caps]. simpl String.append.
      simpl Re.exec. simpl replicate.
      do 2 f_equal.
      rewrite (consumed_eq _ _ (name +:+ "." +:+ ext))
        by (simpl; rewrite !append_assoc; reflexivity).
      rewrite (consumed_eq _ _ (":" +:+ N)) by reflexivity.
      reflexivity. }
  rewrite append_empty_r in E. rewrite E. now rewrite consumed_all.
Qed.

Lemma assign_group_file (h : Host) (cfg : gmap string pyval)
    (name ext : string) :
  name <> "" -> Str.all is_path_char name = true ->
  assign_group h cfg empty_reference (Some (name +:+ "." +:+ ext)) "file"
  = (filepath ← resolve_path h cfg (name +:+ "." +:+ ext);
     mret (filepath, PStr "1", PStr "1")).
Proof.
  intros Hname Hnamec. unfold assign_group, empty_reference.
  destruct name as [|c name]; [congruence |].
  cbn [Str.all] in Hnamec. apply andb_true_iff in Hnamec as [Hc _].
  assert (Str.startswith ":" (String c name +:+ "." +:+ ext) = false) as ->.
  { cbn [String.append Str.startswith].
    destruct (Ascii.eqb_spec ":" c) as [<-|]; [discriminate | reflexivity]. }
  reflexivity.
Qed.

(** X11: with git diff support off, the default pattern and the
    default group names, a plain fragment without a column keeps column
    1, and one without a line keeps line 1 and column 1; the file path
    is the outcome of path resolution. *)
Theorem plain_fragment_defaults (h : Host) (cfg : gmap string pyval)
    (name ext : string) (ctx : DiffContext) :
  git_diff_enabled cfg = false ->
  cfg !! "match" = Some (PStr DEFAULT_REGEX) ->
  cfg !! "groups" = Some (PStr DEFAULT_GROUPS) ->
  name <> "" -> Str.all is_path_char name = true ->
  ext <> "" -> Str.all is_alnum_char ext = true ->
  Str.startswith "a/" (name +:+ "." +:+ ext) = false ->
  Str.startswith "b/" (name +:+ "." +:+ ext) = false ->
  (get_filepath h cfg (name +:+ "." +:+ ext) ctx).1
  = (filepath ← resolve_path h cfg (name +:+ "." +:+ ext);
     mret (filepath, PStr "1", PStr "1"))
  /\ (forall N, N <> "" -> Str.all is_num_char N = true ->
        (get_filepath h cfg (name +:+ "." +:+ ext +:+ ":" +:+ N) ctx).1
        = (filepath ← resolve_path h cfg (name +:+ "." +:+ ext);
           mret (filepath, PStr N, PStr "1"))).
Proof.
  intros Hoff Hp Hg Hname Hnamec Hext Hextc Ha Hb. split.
  - rewrite get_filepath_disabled by assumption. cbn [fst].
    unfold plain_reference, getitem, py_match. rewrite Hp, Hg.
    cbn [as_str mbind result_bind mret result_ret].
    rewrite default_matches_file by assumption.
    change (Str.split_ws DEFAULT_GROUPS) with ["file"; "line"; "column"].
    cbn [Re.groups mbind result_bind mret result_ret zip zip_with assign_groups].
    rewrite assign_group_file by assumption.
    destruct (resolve_path h cfg (name +:+ "." +:+ ext)) as [fp|e]; reflexivity.
  - intros N HN HNc.
    rewrite get_filepath_disabled by assumption. cbn [fst].
    unfold plain_reference, getitem, py_match. rewrite Hp, Hg.
    cbn [as_str mbind result_bind mret result_ret].
    rewrite default_matches_file_line by assumption.
    change (Str.split_ws DEFAULT_GROUPS) with ["file"; "line"; "column"].
    cbn [Re.groups mbind result_bind mret result_ret zip zip_with assign_groups].
    rewrite assign_group_file by assumption.
    destruct (resolve_path h cfg (name +:+ "." +:+ ext)) as [fp|e];
      [| reflexivity].
    cbn [mbind result_bind mret result_ret].
    now rewrite assign_group_line by assumption.
Qed.

Lemma plain_fragment_defaults_witness :
  (get_filepath sample_host plain_config "src/foo.py" initial_context).1
  = Ok (PStr "/home/u/proj/src/foo.py", PStr "1", PStr "1")
  /\ (get_filepath sample_host plain_config "src/foo.py:12" initial_context).1
     = Ok (PStr "/home/u/proj/src/foo.py", PStr "12", PStr "1").
Proof.
  destruct (plain_fragment_defaults sample_host plain_config
              "src/foo" "py" initial_context
              eq_refl eq_refl eq_refl
              ltac:(discriminate) eq_refl ltac:(discriminate) eq_refl
              eq_refl eq_refl) as [H1 H2].
  split; [exact H1 |].
  exact (H2 "12" ltac:(discriminate) eq_refl).
Defined.

(** X12: a plain fragment made of path characters with no dot (so
    without an extension) is not matched by the plain pattern: with git
    diff support off it resolves to the empty reference, even if the
    file exists. *)
Theorem plain_needs_extension (h : Host) (cfg : gmap string pyval)
    (w : string) (ctx : DiffContext) :
  git_diff_enabled cfg = false ->
  cfg !! "match" = Some (PStr DEFAULT_REGEX) ->
  Str.all is_path_char w = true -> Str.contains "." w = false ->
  py_match (PStr DEFAULT_REGEX) w = Ok None
  /\ get_filepath h cfg w ctx = (Ok empty_reference, ctx).
Proof.
  intros Hoff Hp Hw Hdot.
  destruct (bare_name_no_match w Hw Hdot) as [M1 _].
  assert (py_match (PStr DEFAULT_REGEX) w = Ok None) as Hm.
  { unfold py_match. cbn [as_str mbind result_bind]. now rewrite M1. }
  split; [exact Hm |].
  rewrite get_filepath_disabled by assumption.
  now rewrite (plain_reference_nomatch h cfg w _ Hp Hm).
Qed.

Lemma plain_needs_extension_witness :
  get_filepath
    {| host_cwd := PStr "/home/u/proj"; path_exists := fun _ => true;
       expanduser := fun p => p; walk := fun _ => [] |}
    plain_config "src/Makefile" initial_context
  = (Ok empty_reference, initial_context).
Proof.
  apply (plain_needs_extension
           {| host_cwd := PStr "/home/u/proj"; path_exists := fun _ => true;
              expanduser := fun p => p; walk := fun _ => [] |}
           plain_config "src/Makefile" initial_context); reflexivity.
Defined.

(** ** More on the configuration *)

(** What [check_config] computes, in one expression: [v] and [g] are
    the merged values of the two flags. *)
Lemma check_config_shape (saved : option (gmap string pyval)) :
  exists (v g : pyval),
    let c0 := match saved with
              | Some m => m ∪ default_config
              | None => default_config
              end in
    c0 !! "open_in_current_term" = Some v
    /\ c0 !! "git_diff_support" = Some g
    /\ check_config saved
       = Ok ((if to_bool g
              then <["match" := PStr GIT_DIFF_REGEX]>
              else fun c => c)
               (<["git_diff_support" := PBool (to_bool g)]>
                  (<["open_in_current_term" := PBool (to_bool v)]> c0))).
Proof.
  assert (forall k d, default_config !! k = Some d ->
            exists x, match saved with
                      | Some m => m ∪ default_config
                      | None => default_config
                      end !! k = Some x) as Hm.
  { intros k d Hd. destruct saved as [m|]; [| exists d; exact Hd].
    destruct (m !! k) as [x|] eqn:E.
    - exists x. now apply lookup_union_Some_l.
    - exists d. rewrite lookup_union_r by exact E. exact Hd. }
  destruct (Hm "open_in_current_term" (PBool false) eq_refl) as [v Hv].
  destruct (Hm "git_diff_support" (PBool true) eq_refl) as [g Hg].
  exists v, g. cbv zeta. split; [exact Hv |]. split; [exact Hg |].
  unfold check_config, getitem. rewrite Hv. cbn [mbind result_bind].
  rewrite lookup_insert_ne by discriminate. rewrite Hg. cbn [default id].
  rewrite lookup_insert_eq. cbn [mbind result_bind truthy mret result_ret].
  now destruct (to_bool g).
Qed.

Lemma to_bool_true (v : pyval) : to_bool v = true <-> v = PStr "True".
Proof.
  unfold to_bool. destruct v as [| b | s]; cbn [py_eqb]; try (split; discriminate).
  rewrite String.eqb_eq. split; [now intros -> | now intros [= ->]].
Qed.

Lemma check_config_flags_eq (saved : option (gmap string pyval)) :
  exists cfg (open_flag git_flag : bool),
    check_config saved = Ok cfg
    /\ cfg !! "open_in_current_term" = Some (PBool open_flag)
    /\ cfg !! "git_diff_support" = Some (PBool git_flag)
    /\ (open_flag = true <->
        exists m, saved = Some m
                  /\ m !! "open_in_current_term" = Some (PStr "True"))
    /\ (git_flag = true <->
        exists m, saved = Some m
                  /\ m !! "git_diff_support" = Some (PStr "True")).
Proof.
  destruct (check_config_shape saved) as (v & g & Hv & Hg & E). cbv zeta in *.
  eexists. exists (to_bool v), (to_bool g). split; [exact E |].
  assert (forall k d x, default_config !! k = Some (PBool d) ->
            match saved with
            | Some m => m ∪ default_config
            | None => default_config
            end !! k = Some x ->
            to_bool x = true <->
            exists m, saved = Some m /\ m !! k = Some (PStr "True")) as Hiff.
  { intros k d x Hd Hx. rewrite to_bool_true. split.
    - intros ->. destruct saved as [m|]; [| congruence].
      exists m. split; [reflexivity |].
      destruct (m !! k) as [y|] eqn:Ey.
      + rewrite (lookup_union_Some_l _ _ _ _ Ey) in Hx. congruence.
      + rewrite lookup_union_r in Hx by exact Ey. congruence.
    - intros (m & -> & Hk).
      rewrite (lookup_union_Some_l _ _ _ _ Hk) in Hx. congruence. }
  repeat split.
  - destruct (to_bool g).
    + rewrite !lookup_insert_ne by discriminate. apply lookup_insert_eq.
    + rewrite lookup_insert_ne by discriminate. apply lookup_insert_eq.
  - destruct (to_bool g).
    + rewrite lookup_insert_ne by discriminate. apply lookup_insert_eq.
    + apply lookup_insert_eq.
  - apply (Hiff "open_in_current_term" false v eq_refl Hv).
  - apply (Hiff "open_in_current_term" false v eq_refl Hv).
  - apply (Hiff "git_diff_support" true g eq_refl Hg).
  - apply (Hiff "git_diff_support" true g eq_refl Hg).
Qed.

(** X13: [check_config] never raises; it stores both flags as
    booleans, and a flag is stored true exactly when its saved value is
    the string [True]: a saved boolean, any other string, or no saved
    value at all gives false. *)
Theorem check_config_flags (saved : option (gmap string pyval)) :
  exists cfg (open_flag git_flag : bool),
    check_config saved = Ok cfg
    /\ cfg !! "open_in_current_term" = Some (PBool open_flag)
    /\ cfg !! "git_diff_support" = Some (PBool git_flag)
    /\ (open_flag = true <->
        exists m, saved = Some m
                  /\ m !! "open_in_current_term" = Some (PStr "True"))
    /\ (git_flag = true <->
        exists m, saved = Some m
                  /\ m !! "git_diff_support" = Some (PStr "True")).
Proof. apply check_config_flags_eq. Qed.

Lemma check_config_keeps_from (m cfg : gmap string pyval) :
  check_config (Some m) = Ok cfg ->
  (forall k, k <> "open_in_current_term" -> k <> "git_diff_support" ->
             k <> "match" -> cfg !! k = (m ∪ default_config) !! k)
  /\ (m !! "git_diff_support" <> Some (PStr "True") ->
      cfg !! "match" = (m ∪ default_config) !! "match").
Proof.
  intros Hc.
  destruct (check_config_shape (Some m)) as (v & g & Hv & Hg & E).
  cbv zeta in *. rewrite E in Hc. injection Hc as <-. split.
  - intros k H1 H2 H3.
    destruct (to_bool g); now rewrite !lookup_insert_ne by congruence.
  - intros Hflag.
    destruct (to_bool g) eqn:Hb.
    + exfalso. apply to_bool_true in Hb as ->. apply Hflag.
      destruct (m !! "git_diff_support") as [y|] eqn:Ey.
      * rewrite (lookup_union_Some_l _ _ _ _ Ey) in Hg. congruence.
      * rewrite lookup_union_r in Hg by exact Ey. discriminate.
    + now rewrite !lookup_insert_ne by discriminate.
Qed.

Lemma check_config_total (saved : option (gmap string pyval)) :
  exists cfg, check_config saved = Ok cfg.
Proof.
  destruct (check_config_shape saved) as (v & g & _ & _ & E).
  cbv zeta in E. eexists. exact E.
Qed.

(** X14: [check_config] keeps every saved key other than the two
    flags and [match], adds the defaults for the keys that are not
    saved, and keeps the saved [match] too unless the saved
    [git_diff_support] is the string [True]. *)
Theorem check_config_keeps (m : gmap string pyval) :
  exists cfg,
    check_config (Some m) = Ok cfg
    /\ (forall k, k <> "open_in_current_term" -> k <> "git_diff_support" ->
                  k <> "match" -> cfg !! k = (m ∪ default_config) !! k)
    /\ (m !! "git_diff_support" <> Some (PStr "True") ->
        cfg !! "match" = (m ∪ default_config) !! "match").
Proof.
  destruct (check_config_total (Some m)) as [cfg E].
  exists cfg. split; [exact E |]. now apply check_config_keeps_from.
Qed.

Lemma check_config_keeps_witness :
  exists cfg,
    check_config (Some {[ "git_diff_support" := PStr "False";
                          "match" := PStr "[a-z]+\.py";
                          "libdir" := PStr "~/lib" ]}) = Ok cfg
    /\ cfg !! "libdir" = Some (PStr "~/lib")
    /\ cfg !! "command" = Some (PStr DEFAULT_COMMAND)
    /\ cfg !! "match" = Some (PStr "[a-z]+\.py").
Proof.
  destruct (check_config_keeps {[ "git_diff_support" := PStr "False";
                                  "match" := PStr "[a-z]+\.py";
                                  "libdir" := PStr "~/lib" ]})
    as (cfg & E & K1 & K2).
  exists cfg. split; [exact E |]. split; [| split].
  - rewrite K1 by discriminate. reflexivity.
  - rewrite K1 by discriminate. reflexivity.
  - rewrite K2 by discriminate. reflexivity.
Defined.

Lemma check_config_again_from (saved : option (gmap string pyval))
    (cfg1 cfg2 : gmap string pyval) :
  check_config saved = Ok cfg1 ->
  check_config (Some cfg1) = Ok cfg2 ->
  cfg2 !! "open_in_current_term" = Some (PBool false)
  /\ cfg2 !! "git_diff_support" = Some (PBool false)
  /\ (forall k, k <> "open_in_current_term" -> k <> "git_diff_support" ->
                cfg2 !! k = cfg1 !! k).
Proof.
  intros H1 H2.
  destruct (check_config_flags_eq saved) as (c & fo & fg & E & Ho & Hg & _).
  rewrite H1 in E. injection E as <-.
  destruct (check_config_shape (Some cfg1)) as (v & g & Hv & Hg2 & E2).
  cbv zeta in *. rewrite H2 in E2. injection E2 as ->.
  rewrite (lookup_union_Some_l _ _ _ _ Ho) in Hv. injection Hv as <-.
  rewrite (lookup_union_Some_l _ _ _ _ Hg) in Hg2. injection Hg2 as <-.
  change (to_bool (PBool fo)) with false.
  change (to_bool (PBool fg)) with false.
  cbv iota beta.
  assert (forall k, (cfg1 ∪ default_config) !! k = cfg1 !! k) as Hsame.
  { intros k. destruct (cfg1 !! k) as [x|] eqn:Ex.
    - now apply lookup_union_Some_l.
    - rewrite lookup_union_r by exact Ex.
      destruct (check_config_shape saved) as (v0 & g0 & _ & _ & E0).
      cbv zeta in E0. rewrite H1 in E0. injection E0 as E0.
      destruct (default_config !! k) as [d|] eqn:Ed; [| reflexivity].
      exfalso.
      assert (is_Some (cfg1 !! k)) as [y Hy]; [| congruence].
      rewrite E0.
      assert (is_Some (match saved with
                       | Some m => m ∪ default_config
                       | None => default_config
                       end !! k)) as Hin.
      { destruct saved as [m|]; [| exists d; exact Ed].
        destruct (m !! k) as [z|] eqn:Ez.
        - exists z. now apply lookup_union_Some_l.
        - exists d. now rewrite lookup_union_r by exact Ez. }
      destruct (to_bool g0);
        repeat (rewrite lookup_insert; case_decide; [now eexists |]);
        exact Hin. }
  repeat split.
  - rewrite lookup_insert_ne by discriminate. apply lookup_insert_eq.
  - apply lookup_insert_eq.
  - intros k Ko Kg. rewrite !lookup_insert_ne by congruence. apply Hsame.
Qed.

(** X15: run again on what it produced, [check_config] turns both
    flags off and changes nothing else: the git diff pattern stored by
    a first run stays in [match] while [git_diff_support] becomes
    false. *)
Theorem check_config_again (saved : option (gmap string pyval)) :
  exists cfg1 cfg2,
    check_config saved = Ok cfg1
    /\ check_config (Some cfg1) = Ok cfg2
    /\ cfg2 !! "open_in_current_term" = Some (PBool false)
    /\ cfg2 !! "git_diff_support" = Some (PBool false)
    /\ (forall k, k <> "open_in_current_term" -> k <> "git_diff_support" ->
                  cfg2 !! k = cfg1 !! k).
Proof.
  destruct (check_config_total saved) as [cfg1 E1].
  destruct (check_config_total (Some cfg1)) as [cfg2 E2].
  exists cfg1, cfg2. split; [exact E1 |]. split; [exact E2 |].
  now apply (check_config_again_from saved).
Qed.

(** ** The callback *)

(** X16: when no library directory was saved, the configuration
    [check_config] produces has none either, and a captured path found
    neither as given nor under the working directory makes path
    resolution raise instead of giving no path. *)
Theorem unresolved_without_libdir_raises (saved : option (gmap string pyval))
    (h : Host) (raw cwd : string) :
  (forall m, saved = Some m -> m !! "libdir" = None) ->
  OsPath.isabs raw && path_exists h raw = false ->
  host_cwd h = PStr cwd ->
  path_exists h (OsPath.join cwd raw) = false ->
  exists cfg,
    check_config saved = Ok cfg
    /\ cfg !! "libdir" = None
    /\ exists e, resolve_path h cfg raw = Raise e.
Proof.
  intros Hsaved Hno Hcwd Hex.
  destruct (check_config_total saved) as [cfg Hc].
  exists cfg. split; [exact Hc |].
  assert (cfg !! "libdir" = None) as Hlib.
  { destruct (check_config_shape saved) as (v & g & _ & _ & E).
    cbv zeta in E. rewrite E in Hc. injection Hc as <-.
    assert (match saved with
            | Some m => m ∪ default_config
            | None => default_config
            end !! "libdir" = None) as H0.
    { destruct saved as [m|]; [| reflexivity].
      rewrite lookup_union_r by now apply Hsaved. reflexivity. }
    destruct (to_bool g); now rewrite !lookup_insert_ne by discriminate. }
  split; [exact Hlib |].
  unfold resolve_path, join_cwd, search_filepath_in_libdir, getitem.
  rewrite Hno, Hcwd. cbn [as_str mbind result_bind mret result_ret].
  rewrite Hex, Hlib. cbn [negb mbind result_bind]. now eexists.
Qed.

Lemma unresolved_without_libdir_raises_witness :
  exists cfg,
    check_config None = Ok cfg
    /\ cfg !! "libdir" = None
    /\ exists e, resolve_path bare_host cfg "nothere.py" = Raise e.
Proof.
  apply (unresolved_without_libdir_raises None bare_host "nothere.py"
           "/home/u/proj"); (reflexivity || discriminate).
Defined.

Lemma startswith_append (old s : string) : Str.startswith old (old +:+ s) = true.
Proof.
  induction old as [|o old IH]; [now destruct s |].
  cbn [String.append Str.startswith]. now rewrite Ascii.eqb_refl, IH.
Qed.

Lemma replace_skip (old new u : string) :
  forall s, replace_from old new (String.length u) (u +:+ s)
            = replace_from old new 0 s.
Proof.
  induction u as [|a u IH]; intros s; cbn [String.length String.append].
  - now destruct s.
  - cbn [replace_from]. apply IH.
Qed.

Lemma replace_hit (o : ascii) (old new s : string) :
  replace_from (String o old) new 0 (String o old +:+ s)
  = new +:+ replace_from (String o old) new 0 s.
Proof.
  cbn [String.append replace_from].
  change (String o (old +:+ s)) with (String o old +:+ s).
  rewrite startswith_append. cbn [String.length Nat.sub].
  now rewrite Nat.sub_0_r, replace_skip.
Qed.

Lemma inert_brace_free (old x : string) :
  brace_free x = true -> inert (String "{" old) x.
Proof.
  unfold brace_free. intros Hx new s.
  apply negb_true_iff in Hx.
  induction x as [|a x IH]; [reflexivity |].
  cbn [Str.contains] in Hx. apply orb_false_iff in Hx as [Ha Hx].
  cbn [String.append replace_from Str.startswith].
  rewrite (Ascii.eqb_sym "{" a), Ha. cbn [andb].
  now rewrite IH.
Qed.

(** One replacement over a template's text: each piece is either the
    text replaced or is passed over. *)
Lemma replace_render (o : ascii) (old new : string)
    (before after : segment -> string) (template : list segment) :
  Forall (fun seg =>
            (before seg = String o old /\ after seg = new)
            \/ (inert (String o old) (before seg) /\ after seg = before seg))
         template ->
  str_replace (String o old) new (render_with before template)
  = render_with after template.
Proof.
  cbn [str_replace].
  induction 1 as [|seg rest Hseg _ IH]; [reflexivity |].
  cbn [render_with].
  destruct Hseg as [[-> ->] | [Hin ->]].
  - now rewrite replace_hit, IH.
  - now rewrite Hin, IH.
Qed.

Lemma substitute_render (template : list segment)
    (filepath line column : string) :
  literals_brace_free template = true ->
  brace_free filepath = true -> brace_free line = true ->
  brace_free column = true ->
  substitute (template_text template) filepath line column
  = render filepath line column template.
Proof.
  intros Hlit Hf Hl Hc.
  unfold literals_brace_free in Hlit. rewrite forallb_forall in Hlit.
  unfold substitute, template_text, render.
  rewrite (replace_render "{" "filepath}" filepath _
             (values filepath "{line}" "{column}")).
  2: { apply Forall_forall. intros [t| | |] Hin; cbn [values].
       - right. split; [| reflexivity]. apply inert_brace_free.
         apply (Hlit (Lit t)). now apply list_elem_of_In.
       - now left.
       - right. split; [intros new s; reflexivity | reflexivity].
       - right. split; [intros new s; reflexivity | reflexivity]. }
  rewrite (replace_render "{" "line}" line _
             (values filepath line "{column}")).
  2: { apply Forall_forall. intros [t| | |] Hin; cbn [values].
       - right. split; [| reflexivity]. apply inert_brace_free.
         apply (Hlit (Lit t)). now apply list_elem_of_In.
       - right. split; [now apply inert_brace_free | reflexivity].
       - now left.
       - right. split; [intros new s; reflexivity | reflexivity]. }
  apply replace_render.
  apply Forall_forall. intros [t| | |] Hin; cbn [values].
  - right. split; [| reflexivity]. apply inert_brace_free.
    apply (Hlit (Lit t)). now apply list_elem_of_In.
  - right. split; [now apply inert_brace_free | reflexivity].
  - right. split; [now apply inert_brace_free | reflexivity].
  - now left.
Qed.

(** X17: for a command template whose literal text holds no opening
    brace, and a file path, line and column that hold none, the three
    successive replacements give the template with every placeholder
    replaced by its value at once. *)
Theorem substitute_is_simultaneous (template : list segment)
    (filepath line column : string) :
  literals_brace_free template = true ->
  brace_free filepath = true -> brace_free line = true ->
  brace_free column = true ->
  substitute (template_text template) filepath line column
  = render filepath line column template.
Proof. apply substitute_render. Qed.

Lemma substitute_is_simultaneous_witness :
  substitute "editor +{line} {filepath}" "/a/b.py" "3" "1" = "editor +3 /a/b.py".
Proof.
  apply (substitute_is_simultaneous [Lit "editor +"; Line; Lit " "; FilePath]
           "/a/b.py" "3" "1"); reflexivity.
Defined.

Lemma brace_free_append (a b : string) :
  brace_free (a +:+ b) = brace_free a && brace_free b.
Proof. unfold brace_free. now rewrite contains_append, negb_orb. Qed.

Lemma replace_brace_free (old new x : string) :
  brace_free x = true -> str_replace (String "{" old) new x = x.
Proof.
  intros Hx. cbn [str_replace].
  rewrite <- (append_empty_r x) at 1.
  rewrite (inert_brace_free old x Hx). cbn [replace_from].
  apply append_empty_r.
Qed.

(** X18: the replacements are successive, not simultaneous: a file
    path that holds the text [{line}] has it replaced by the line
    number as well. *)
Theorem substitute_rewrites_filepath (pre post a b line column : string) :
  brace_free pre = true -> brace_free post = true ->
  brace_free a = true -> brace_free b = true -> brace_free line = true ->
  substitute (pre +:+ "{filepath}" +:+ post) (a +:+ "{line}" +:+ b) line column
  = pre +:+ a +:+ line +:+ b +:+ post.
Proof.
  intros Hpre Hpost Ha Hb Hl. unfold substitute.
  assert (str_replace "{filepath}" (a +:+ "{line}" +:+ b)
            (pre +:+ "{filepath}" +:+ post)
          = pre +:+ a +:+ "{line}" +:+ b +:+ post) as ->.
  { cbn [str_replace].
    rewrite (inert_brace_free _ pre Hpre), replace_hit.
    rewrite <- (append_empty_r post) at 1.
    rewrite (inert_brace_free _ post Hpost). cbn [replace_from].
    now rewrite append_empty_r, !append_assoc. }
  assert (str_replace "{line}" line (pre +:+ a +:+ "{line}" +:+ b +:+ post)
          = pre +:+ a +:+ line +:+ b +:+ post) as ->.
  { cbn [str_replace].
    rewrite (inert_brace_free _ pre Hpre), (inert_brace_free _ a Ha), replace_hit.
    rewrite (inert_brace_free _ b Hb).
    rewrite <- (append_empty_r post) at 1.
    rewrite (inert_brace_free _ post Hpost). cbn [replace_from].
    now rewrite append_empty_r. }
  apply replace_brace_free.
  now rewrite !brace_free_append, Hpre, Ha, Hl, Hb, Hpost.
Qed.

Lemma substitute_rewrites_filepath_witness :
  substitute "vi {filepath}" "/tmp/{line}.txt" "7" "1" = "vi /tmp/7.txt".
Proof.
  apply (substitute_rewrites_filepath "vi " "" "/tmp/" ".txt" "7" "1");
    reflexivity.
Defined.





